(** * CollectFi: trading engine, vault manager and redemption gate

    A shallow embedding of the core classes of the CollectFi service
    ([TradingEngine], [VaultManager], [AssetManager], [CollectFi]) and of
    the administrative redemption route, followed by the properties of the
    order, position and redemption logic.

    Conventions of the embedding.
    - A TypeScript [number] is an exact rational ([Q]); the comparisons of
      the source ([<], [>]) are the boolean tests [ltb]/[gtb] below.
      IEEE rounding, NaN and the infinities are not represented.
    - A [Map<string, X>] is a [gmap string X].  Objects stored in a map and
      mutated in place are written back with an insertion, as the source
      itself does ([this.orders.set(orderId, order)]).
    - An [async] method that may [throw] is a computation in the monad
      [M S] over the state [S] of its class: it returns either a value or
      the exception thrown, with the state reached.
    - [new Date()], [Date.now()] and [Math.random()] are inputs of the
      operation that reads them. *)

From Stdlib Require Import QArith ZArith List Bool Ascii String Lia Sorted.
From stdpp Require Import base option list gmap strings fin_maps.
Import ListNotations.

Local Open Scope string_scope.
Local Open Scope Q_scope.

(** ** Numbers *)

Definition ltb (x y : Q) : bool := negb (Qle_bool y x).
Definition gtb (x y : Q) : bool := ltb y x.

(** JavaScript truthiness of an optional numeric argument
    ([if (maxPrice && ...)]): absent and zero are falsy. *)
Definition truthy (o : option Q) : bool :=
  match o with
  | Some x => negb (Qeq_bool x 0)
  | None => false
  end.

(** ** Arrays *)

(** [array.sort(compare)] is stable.  [before a b] says that
    [compare(a, b) <= 0]: an element is inserted in front of the first
    one that it may precede, so that ties keep the order of the array. *)
Fixpoint insertSorted {A} (before : A -> A -> bool) (x : A) (l : list A) : list A :=
  match l with
  | [] => [x]
  | y :: l' => if before x y then x :: y :: l' else y :: insertSorted before x l'
  end.

Definition sort {A} (before : A -> A -> bool) (l : list A) : list A :=
  fold_right (insertSorted before) [] l.

(** [array.slice(0, limit)] for an integer [limit]: a negative one counts
    from the end. *)
Definition sliceTo {A} (limit : Z) (l : list A) : list A :=
  if (0 <=? limit)%Z then firstn (Z.to_nat limit) l
  else firstn (length l - Z.to_nat (- limit)) l.

(** ** Computations that may throw *)

(** What a method throws: a [CollectFiError] with its code, or a plain
    [Error] raised by a library. *)
Inductive Exception :=
| CollectFiError (code : string)
| Error (message : string).

Inductive Outcome (A : Type) : Type :=
| Returned (a : A)
| Thrown (e : Exception).
Arguments Returned {A} a.
Arguments Thrown {A} e.

Definition M (S A : Type) : Type := S -> Outcome A * S.

Definition ret {S A} (a : A) : M S A := fun s => (Returned a, s).
Definition throw {S A} (e : Exception) : M S A := fun s => (Thrown e, s).
Definition bind {S A B} (c : M S A) (k : A -> M S B) : M S B :=
  fun s =>
    match c s with
    | (Returned a, s') => k a s'
    | (Thrown e, s') => (Thrown e, s')
    end.
Definition get {S} : M S S := fun s => (Returned s, s).
Definition modify {S} (f : S -> S) : M S unit := fun s => (Returned tt, f s).

Notation "'do' x <- c ; k" := (bind c (fun x => k))
  (at level 10, x name, c at level 100, k at level 200).
Notation "'exec' c ; k" := (bind c (fun _ => k))
  (at level 10, c at level 100, k at level 200).

(** ** Types ([src/types/index.ts]) *)

Module OrderType.
Inductive t := MARKET | LIMIT.
End OrderType.

Module OrderSide.
Inductive t := BUY | SELL.
End OrderSide.

Module OrderStatus.
Inductive t := PENDING | EXECUTED | CANCELLED | FAILED.
Definition eqb (a b : t) : bool :=
  match a, b with
  | PENDING, PENDING | EXECUTED, EXECUTED
  | CANCELLED, CANCELLED | FAILED, FAILED => true
  | _, _ => false
  end.
End OrderStatus.

Module RedemptionStatus.
Inductive t := PENDING | PROCESSING | SHIPPED | DELIVERED | CANCELLED.
Definition eqb (a b : t) : bool :=
  match a, b with
  | PENDING, PENDING | PROCESSING, PROCESSING | SHIPPED, SHIPPED
  | DELIVERED, DELIVERED | CANCELLED, CANCELLED => true
  | _, _ => false
  end.
End RedemptionStatus.

(** The side argument of the trading methods, of type ["buy" | "sell"]. *)
Inductive TradeSide := buy | sell.

Module PortfolioAsset.
Record t := mk {
  assetId : string;
  mint : string;
  quantity : Q;
  averagePrice : Q;
  currentValue : Q;
  pnl : Q;
  pnlPercentage : Q
}.
End PortfolioAsset.

Module UserPortfolio.
Record t := mk {
  userId : string;
  walletAddress : string;
  assets : list PortfolioAsset.t;
  totalValue : Q;
  totalValueUSD : Q;
  pnl24h : Q;
  pnl7d : Q;
  pnl30d : Q
}.
End UserPortfolio.

Module TradingOrder.
Record t := mk {
  id : string;
  userId : string;
  assetMint : string;
  type : OrderType.t;
  side : OrderSide.t;
  quantity : Q;
  price : Q;
  status : OrderStatus.t;
  createdAt : Z;
  executedAt : option Z;
  txHash : option string
}.
End TradingOrder.

Module MarketData.
Record t := mk {
  assetMint : string;
  currentPrice : Q;
  priceChange24h : Q;
  priceChangePercentage24h : Q;
  volume24h : Q;
  marketCap : Q;
  circulatingSupply : Q;
  totalSupply : Q;
  high24h : Q;
  low24h : Q;
  lastUpdated : Z
}.
End MarketData.

Module PricePoint.
Record t := mk {
  timestamp : Z;
  price : Q;
  volume : Q;
  marketCap : Q
}.
End PricePoint.

Module ShippingAddress.
Record t := mk {
  firstName : string;
  lastName : string;
  address : string;
  city : string;
  state : string;
  zipCode : string;
  country : string;
  phone : string
}.
End ShippingAddress.

Module RedemptionRequest.
Record t := mk {
  id : string;
  userId : string;
  assetMint : string;
  tokenQuantity : Q;
  status : RedemptionStatus.t;
  requestedAt : Z;
  processedAt : option Z;
  shippingAddress : ShippingAddress.t;
  trackingNumber : option string
}.
End RedemptionRequest.

(** [TransactionInstruction] and [Transaction] of the Solana client: the
    engine only ever builds the placeholder instruction, with no keys, no
    data and the program id of the configuration. *)
Module TransactionInstruction.
Record t := mk {
  keys : list string;
  programId : string;
  data : list Z
}.
End TransactionInstruction.

Definition Transaction := list TransactionInstruction.t.

(** A [PublicKey] is handled through its base58 text ([toString()]). *)
Abbreviation PublicKey := string.

(** ** The trading engine ([src/core/TradingEngine.ts]) *)

Module TradingEngine.

(** The private maps of the class.  [programKey] is the result of
    [new PublicKey(this.config.programId)], which the Solana client
    rejects when the configured string is not the base58 form of 32
    bytes: the decoder is a library, so its verdict is carried here. *)
Record t := mk {
  programKey : option PublicKey;
  orders : gmap string TradingOrder.t;
  portfolios : gmap string UserPortfolio.t;
  marketData : gmap string MarketData.t
}.

Definition set_orders (o : gmap string TradingOrder.t) (e : t) : t :=
  mk (programKey e) o (portfolios e) (marketData e).
Definition set_portfolios (p : gmap string UserPortfolio.t) (e : t) : t :=
  mk (programKey e) (orders e) p (marketData e).
Definition set_marketData (m : gmap string MarketData.t) (e : t) : t :=
  mk (programKey e) (orders e) (portfolios e) m.

(** The engine as constructed, before [initialize]. *)
Definition new (key : option PublicKey) : t := mk key ∅ ∅ ∅.

Definition sampleMarketData (now : Z) : list MarketData.t :=
  [ MarketData.mk "ROLEXDAYTONA1mintaddress123456789"
      180 5.2 3.6 2800 18000000 100000 100000 185 175 now;
    MarketData.mk "ROLEXDAYTONA2mintaddress123456789"
      175 (-2.1) (-1.4) 2200 17500000 100000 100000 178 172 now ].

Definition initializeMarketData (now : Z) : M t unit :=
  modify (fun e =>
    set_marketData
      (fold_left (fun m data => <[MarketData.assetMint data := data]> m)
         (sampleMarketData now) (marketData e)) e).

Definition initialize (now : Z) : M t unit := initializeMarketData now.

Definition getUserPortfolio (walletAddress : string) : M t (option UserPortfolio.t) :=
  do e <- get; ret (portfolios e !! walletAddress).

Definition getMarketData (assetMint : string) : M t (option MarketData.t) :=
  do e <- get; ret (marketData e !! assetMint).

(** [createBuyInstruction] and [createSellInstruction] build the same
    placeholder; building it evaluates [new PublicKey(programId)]. *)
Definition createInstruction : M t TransactionInstruction.t :=
  do e <- get;
  match programKey e with
  | Some k => ret (TransactionInstruction.mk [] k [])
  | None => throw (Error "Invalid public key input")
  end.

Definition createBuyInstruction (assetMint : string) (quantity : Q)
    (buyerPublicKey : PublicKey) (price : Q) : M t TransactionInstruction.t :=
  createInstruction.

Definition createSellInstruction (assetMint : string) (quantity : Q)
    (sellerPublicKey : PublicKey) (price : Q) : M t TransactionInstruction.t :=
  createInstruction.

(** [updateMarketDataAfterTrade], on the record found for the asset. *)
Definition tradeOnMarket (now : Z) (quantity price : Q) (md : MarketData.t)
  : MarketData.t :=
  MarketData.mk
    (MarketData.assetMint md)
    price
    (MarketData.priceChange24h md)
    (MarketData.priceChangePercentage24h md)
    (MarketData.volume24h md + quantity * price)
    (price * MarketData.totalSupply md)
    (MarketData.circulatingSupply md)
    (MarketData.totalSupply md)
    (if gtb price (MarketData.high24h md) then price else MarketData.high24h md)
    (if ltb price (MarketData.low24h md) then price else MarketData.low24h md)
    now.

Definition updateMarketDataAfterTrade (now : Z) (assetMint : string)
    (quantity : Q) (side : TradeSide) (price : Q) : M t unit :=
  do e <- get;
  match marketData e !! assetMint with
  | None => ret tt
  | Some md =>
      modify (set_marketData
                (<[assetMint := tradeOnMarket now quantity price md]> (marketData e)))
  end.

Definition newPortfolio (walletAddress : string) : UserPortfolio.t :=
  UserPortfolio.mk walletAddress walletAddress [] 0 0 0 0 0.

Definition newAsset (assetMint : string) : PortfolioAsset.t :=
  PortfolioAsset.mk assetMint assetMint 0 0 0 0 0.

Definition hasMint (assetMint : string) (a : PortfolioAsset.t) : bool :=
  String.eqb (PortfolioAsset.mint a) assetMint.

(** The object returned by [assets.find] is changed in place: the first
    entry of the array with the given mint is replaced by its new value. *)
Fixpoint mutateFound (assetMint : string) (f : PortfolioAsset.t -> PortfolioAsset.t)
    (l : list PortfolioAsset.t) : list PortfolioAsset.t :=
  match l with
  | [] => []
  | a :: l' =>
      if hasMint assetMint a then f a :: l'
      else a :: mutateFound assetMint f l'
  end.

(** Lines 504-516 of [updateUserPortfolio]: the buy and sell branches. *)
Definition applySide (side : TradeSide) (quantity price : Q)
    (asset : PortfolioAsset.t) : PortfolioAsset.t :=
  match side with
  | buy =>
      let totalCost :=
        PortfolioAsset.quantity asset * PortfolioAsset.averagePrice asset
        + quantity * price in
      let totalQuantity := PortfolioAsset.quantity asset + quantity in
      PortfolioAsset.mk
        (PortfolioAsset.assetId asset) (PortfolioAsset.mint asset)
        totalQuantity
        (totalCost / totalQuantity)
        (PortfolioAsset.currentValue asset) (PortfolioAsset.pnl asset)
        (PortfolioAsset.pnlPercentage asset)
  | sell =>
      let q := PortfolioAsset.quantity asset - quantity in
      PortfolioAsset.mk
        (PortfolioAsset.assetId asset) (PortfolioAsset.mint asset)
        (if ltb q 0 then 0 else q)
        (PortfolioAsset.averagePrice asset)
        (PortfolioAsset.currentValue asset) (PortfolioAsset.pnl asset)
        (PortfolioAsset.pnlPercentage asset)
  end.

(** Lines 518-527: current value and profit, when the asset has market
    data. *)
Definition revalue (md : option MarketData.t) (asset : PortfolioAsset.t)
  : PortfolioAsset.t :=
  match md with
  | None => asset
  | Some marketData =>
      let currentValue :=
        PortfolioAsset.quantity asset * MarketData.currentPrice marketData in
      let pnl :=
        currentValue
        - PortfolioAsset.quantity asset * PortfolioAsset.averagePrice asset in
      PortfolioAsset.mk
        (PortfolioAsset.assetId asset) (PortfolioAsset.mint asset)
        (PortfolioAsset.quantity asset) (PortfolioAsset.averagePrice asset)
        currentValue pnl
        (if gtb (PortfolioAsset.averagePrice asset) 0
         then pnl / (PortfolioAsset.quantity asset
                     * PortfolioAsset.averagePrice asset) * 100
         else 0)
  end.

Definition updateUserPortfolio (walletAddress assetMint : string)
    (quantity price : Q) (side : TradeSide) : M t unit :=
  do e <- get;
  let portfolio :=
    match portfolios e !! walletAddress with
    | Some p => p
    | None => newPortfolio walletAddress
    end in
  let assets0 :=
    match find (hasMint assetMint) (UserPortfolio.assets portfolio) with
    | Some _ => UserPortfolio.assets portfolio
    | None => (UserPortfolio.assets portfolio ++ [newAsset assetMint])%list
    end in
  let assets1 :=
    mutateFound assetMint
      (fun asset =>
         revalue (marketData e !! assetMint) (applySide side quantity price asset))
      assets0 in
  let totalValue :=
    fold_left (fun sum a => sum + PortfolioAsset.currentValue a) assets1 0 in
  let assets2 := List.filter (fun a => gtb (PortfolioAsset.quantity a) 0) assets1 in
  modify (set_portfolios
            (<[walletAddress :=
                 UserPortfolio.mk
                   (UserPortfolio.userId portfolio)
                   (UserPortfolio.walletAddress portfolio)
                   assets2 totalValue
                   (UserPortfolio.totalValueUSD portfolio)
                   (UserPortfolio.pnl24h portfolio)
                   (UserPortfolio.pnl7d portfolio)
                   (UserPortfolio.pnl30d portfolio)]> (portfolios e))).

Definition buyTokens (now : Z) (assetMint : string) (quantity : Q)
    (buyerPublicKey : PublicKey) (maxPrice : option Q) : M t Transaction :=
  do e <- get;
  match marketData e !! assetMint with
  | None => throw (CollectFiError "ASSET_NOT_FOUND")
  | Some marketData =>
      let currentPrice := MarketData.currentPrice marketData in
      if truthy maxPrice && gtb currentPrice (default 0 maxPrice)
      then throw (CollectFiError "PRICE_EXCEEDED")
      else
        do buyInstruction <-
          createBuyInstruction assetMint quantity buyerPublicKey currentPrice;
        exec updateMarketDataAfterTrade now assetMint quantity buy currentPrice;
        exec updateUserPortfolio buyerPublicKey assetMint quantity currentPrice buy;
        ret [buyInstruction]
  end.

Definition sellTokens (now : Z) (assetMint : string) (quantity : Q)
    (sellerPublicKey : PublicKey) (minPrice : option Q) : M t Transaction :=
  do e <- get;
  match marketData e !! assetMint with
  | None => throw (CollectFiError "ASSET_NOT_FOUND")
  | Some marketData =>
      let currentPrice := MarketData.currentPrice marketData in
      if truthy minPrice && ltb currentPrice (default 0 minPrice)
      then throw (CollectFiError "PRICE_TOO_LOW")
      else
        do portfolio <- getUserPortfolio sellerPublicKey;
        let asset :=
          match portfolio with
          | Some p => find (hasMint assetMint) (UserPortfolio.assets p)
          | None => None
          end in
        match asset with
        | None => throw (CollectFiError "INSUFFICIENT_TOKENS")
        | Some a =>
            if ltb (PortfolioAsset.quantity a) quantity
            then throw (CollectFiError "INSUFFICIENT_TOKENS")
            else
              do sellInstruction <-
                createSellInstruction assetMint quantity sellerPublicKey currentPrice;
              exec updateMarketDataAfterTrade now assetMint quantity sell currentPrice;
              exec updateUserPortfolio sellerPublicKey assetMint quantity
                     currentPrice sell;
              ret [sellInstruction]
        end
  end.

(** [generateOrderId]: the clock reading and the random suffix, already
    rendered as text, are inputs. *)
Definition generateOrderId (now rnd : string) : string :=
  "order_" ++ now ++ "_" ++ rnd.

Definition placeLimitOrder (now : Z) (orderId : string) (assetMint : string)
    (side : TradeSide) (quantity price : Q) (userPublicKey : PublicKey)
  : M t string :=
  let order :=
    TradingOrder.mk orderId userPublicKey assetMint OrderType.LIMIT
      (match side with buy => OrderSide.BUY | sell => OrderSide.SELL end)
      quantity price OrderStatus.PENDING now None None in
  exec modify (fun e => set_orders (<[orderId := order]> (orders e)) e);
  ret orderId.

Definition setStatus (s : OrderStatus.t) (o : TradingOrder.t) : TradingOrder.t :=
  TradingOrder.mk
    (TradingOrder.id o) (TradingOrder.userId o) (TradingOrder.assetMint o)
    (TradingOrder.type o) (TradingOrder.side o) (TradingOrder.quantity o)
    (TradingOrder.price o) s (TradingOrder.createdAt o)
    (TradingOrder.executedAt o) (TradingOrder.txHash o).

Definition cancelOrder (orderId : string) (userPublicKey : PublicKey)
  : M t bool :=
  do e <- get;
  match orders e !! orderId with
  | None => ret false
  | Some order =>
      if negb (String.eqb (TradingOrder.userId order) userPublicKey)
      then throw (CollectFiError "UNAUTHORIZED")
      else if negb (OrderStatus.eqb (TradingOrder.status order) OrderStatus.PENDING)
      then throw (CollectFiError "ORDER_NOT_CANCELLABLE")
      else
        exec modify (fun e =>
          set_orders
            (<[orderId := setStatus OrderStatus.CANCELLED order]> (orders e)) e);
        ret true
  end.

(** The reading methods below start from [Array.from(this.orders.values())].
    A [Map] lists its values in insertion order, which a [gmap] does not
    record: the array is the argument [values] of the method. *)

Definition getOpenOrders (values : list TradingOrder.t) (walletAddress : string)
  : list TradingOrder.t :=
  List.filter
    (fun order =>
       String.eqb (TradingOrder.userId order) walletAddress
       && OrderStatus.eqb (TradingOrder.status order) OrderStatus.PENDING)
    values.

(** [(a, b) => b.createdAt.getTime() - a.createdAt.getTime()] *)
Definition newestFirst (a b : TradingOrder.t) : bool :=
  (TradingOrder.createdAt b - TradingOrder.createdAt a <=? 0)%Z.

Definition getTradingHistory (values : list TradingOrder.t) (assetMint : string)
    (limit : Z) : list TradingOrder.t :=
  sliceTo limit
    (sort newestFirst
       (List.filter
          (fun order =>
             String.eqb (TradingOrder.assetMint order) assetMint
             && OrderStatus.eqb (TradingOrder.status order) OrderStatus.EXECUTED)
          values)).

Definition getUserTransactionHistory (values : list TradingOrder.t)
    (walletAddress : string) (limit : Z) : list TradingOrder.t :=
  sliceTo limit
    (sort newestFirst
       (List.filter
          (fun order => String.eqb (TradingOrder.userId order) walletAddress)
          values)).

Definition getTotalUsers : M t nat :=
  do e <- get; ret (size (portfolios e)).

Definition oneDay : Z := 24 * 60 * 60 * 1000.

Definition getTotalVolume24h (values : list TradingOrder.t) (now : Z) : Q :=
  let oneDayAgo := (now - oneDay)%Z in
  fold_left
    (fun totalVolume order =>
       if OrderStatus.eqb (TradingOrder.status order) OrderStatus.EXECUTED
          && (oneDayAgo <=? TradingOrder.createdAt order)%Z
       then totalVolume + TradingOrder.quantity order * TradingOrder.price order
       else totalVolume)
    values 0.

End TradingEngine.

(** ** The vault manager ([VaultManager.ts], redemption part)

    The vault and insurance maps are read-only reference data that no
    redemption method touches; the state kept here is the map of
    redemption requests. *)

Module VaultManager.

Record t := mk {
  redemptionRequests : gmap string RedemptionRequest.t
}.

Definition new : t := mk ∅.

(** [generateRedemptionId], with the clock reading and the random suffix
    as inputs. *)
Definition generateRedemptionId (now rnd : string) : string :=
  "redemption_" ++ now ++ "_" ++ rnd.

Definition getTotalRedemptions : M t nat :=
  do v <- get; ret (size (redemptionRequests v)).

Definition requestRedemption (now : Z) (requestId : string)
    (assetMint : string) (userPublicKey : PublicKey)
    (shippingAddress : ShippingAddress.t) : M t string :=
  let redemptionRequest :=
    RedemptionRequest.mk requestId userPublicKey assetMint
      100000 RedemptionStatus.PENDING now None shippingAddress None in
  exec modify (fun v =>
    mk (<[requestId := redemptionRequest]> (redemptionRequests v)));
  ret requestId.

Definition getRedemptionRequest (requestId : string)
  : M t (option RedemptionRequest.t) :=
  do v <- get; ret (redemptionRequests v !! requestId).

(** Truthiness of an optional string: absent and empty are falsy. *)
Definition given (s : option string) : bool :=
  match s with
  | Some x => negb (String.eqb x "")
  | None => false
  end.

(** The three assignments of [updateRedemptionStatus] on the request. *)
Definition restamp (now : Z) (status : RedemptionStatus.t)
    (trackingNumber : option string) (request : RedemptionRequest.t)
  : RedemptionRequest.t :=
  RedemptionRequest.mk
    (RedemptionRequest.id request)
    (RedemptionRequest.userId request)
    (RedemptionRequest.assetMint request)
    (RedemptionRequest.tokenQuantity request)
    status
    (RedemptionRequest.requestedAt request)
    (if RedemptionStatus.eqb status RedemptionStatus.PROCESSING
     then Some now else RedemptionRequest.processedAt request)
    (RedemptionRequest.shippingAddress request)
    (if RedemptionStatus.eqb status RedemptionStatus.SHIPPED && given trackingNumber
     then trackingNumber else RedemptionRequest.trackingNumber request).

Definition updateRedemptionStatus (now : Z) (requestId : string)
    (status : RedemptionStatus.t) (trackingNumber : option string) : M t bool :=
  do v <- get;
  match redemptionRequests v !! requestId with
  | None => ret false
  | Some request =>
      exec modify (fun v =>
        mk (<[requestId := restamp now status trackingNumber request]>
              (redemptionRequests v)));
      ret true
  end.

Definition processRedemption (now : Z) (requestId : string) : M t bool :=
  do v <- get;
  match redemptionRequests v !! requestId with
  | None => ret false
  | Some request =>
      if negb (RedemptionStatus.eqb (RedemptionRequest.status request)
                 RedemptionStatus.PENDING)
      then throw (CollectFiError "INVALID_REDEMPTION_STATUS")
      else
        exec updateRedemptionStatus now requestId RedemptionStatus.PROCESSING None;
        ret true
  end.

Definition shipRedemption (now : Z) (requestId trackingNumber : string)
  : M t bool :=
  do v <- get;
  match redemptionRequests v !! requestId with
  | None => ret false
  | Some request =>
      if negb (RedemptionStatus.eqb (RedemptionRequest.status request)
                 RedemptionStatus.PROCESSING)
      then throw (CollectFiError "INVALID_REDEMPTION_STATUS")
      else
        exec updateRedemptionStatus now requestId RedemptionStatus.SHIPPED
               (Some trackingNumber);
        ret true
  end.

Definition markRedemptionDelivered (now : Z) (requestId : string) : M t bool :=
  do v <- get;
  match redemptionRequests v !! requestId with
  | None => ret false
  | Some request =>
      if negb (RedemptionStatus.eqb (RedemptionRequest.status request)
                 RedemptionStatus.SHIPPED)
      then throw (CollectFiError "INVALID_REDEMPTION_STATUS")
      else
        exec updateRedemptionStatus now requestId RedemptionStatus.DELIVERED None;
        ret true
  end.

Definition cancelRedemption (now : Z) (requestId userId : string) : M t bool :=
  do v <- get;
  match redemptionRequests v !! requestId with
  | None => ret false
  | Some request =>
      if negb (String.eqb (RedemptionRequest.userId request) userId)
      then throw (CollectFiError "UNAUTHORIZED")
      else if negb (RedemptionStatus.eqb (RedemptionRequest.status request)
                      RedemptionStatus.PENDING)
      then throw (CollectFiError "REDEMPTION_NOT_CANCELLABLE")
      else
        exec updateRedemptionStatus now requestId RedemptionStatus.CANCELLED None;
        ret true
  end.

End VaultManager.

(** ** The redemption status route ([src/routes/vault.ts], lines 185-244) *)

Module VaultRoute.

Record Request := mkRequest {
  permissions : option (list string);
  requestId : string;
  status : string;
  trackingNumber : option string
}.

Record Response := mkResponse {
  httpStatus : Z;
  success : bool;
  code : option string
}.

Definition includes (x : string) (l : list string) : bool :=
  existsb (String.eqb x) l.

Definition hasPermission (req : Request) (p : string) : bool :=
  match permissions req with
  | Some l => includes p l
  | None => false
  end.

Definition validStatuses : list string :=
  ["processing"; "shipped"; "delivered"; "cancelled"].

(** The enum member that a status string is at run time. *)
Definition statusOfString (s : string) : option RedemptionStatus.t :=
  if String.eqb s "pending" then Some RedemptionStatus.PENDING
  else if String.eqb s "processing" then Some RedemptionStatus.PROCESSING
  else if String.eqb s "shipped" then Some RedemptionStatus.SHIPPED
  else if String.eqb s "delivered" then Some RedemptionStatus.DELIVERED
  else if String.eqb s "cancelled" then Some RedemptionStatus.CANCELLED
  else None.

(** The handler: the response sent and the vault manager afterwards.
    The vault manager [v] is the one of the [CollectFi] instance that the
    module of the route creates for itself; the handler is stated for any
    [v], though no request is stored in that instance as long as its
    wallet is not connected. *)
Definition putRedemptionStatus (now : Z) (req : Request) (v : VaultManager.t)
  : Response * VaultManager.t :=
  if negb (hasPermission req "*") && negb (hasPermission req "admin:redemption")
  then (mkResponse 403 false (Some "INSUFFICIENT_PERMISSIONS"), v)
  else if negb (includes (status req) validStatuses)
  then (mkResponse 400 false (Some "INVALID_STATUS"), v)
  else
    match statusOfString (status req) with
    | None => (mkResponse 400 false (Some "INVALID_STATUS"), v)
    | Some target =>
        let call :=
          if String.eqb (status req) "shipped"
             && VaultManager.given (trackingNumber req)
          then VaultManager.shipRedemption now (requestId req)
                 (default "" (trackingNumber req))
          else if String.eqb (status req) "delivered"
          then VaultManager.markRedemptionDelivered now (requestId req)
          else VaultManager.updateRedemptionStatus now (requestId req) target None in
        match call v with
        | (Returned true, v') => (mkResponse 200 true None, v')
        | (Returned false, v') =>
            (mkResponse 404 false (Some "REDEMPTION_REQUEST_NOT_FOUND"), v')
        | (Thrown _, v') =>
            (mkResponse 400 false (Some "STATUS_UPDATE_FAILED"), v')
        end
    end.

End VaultRoute.

(** ** The asset manager ([src/core/AssetManager.ts], price updates)

    An asset object is stored in [assets] under two keys, its id and its
    mint, and its price-history array may also be the value of the
    [priceHistory] map: objects and arrays live in two stores and the
    maps hold addresses, so that a change made through one key is seen
    through the other.  The descriptive sub-records of an asset
    (authentication, storage, insurance, metadata) are never read by
    these methods and are left out, and so is the initial load of the two
    sample assets, whose price history is drawn at random: a manager
    starts empty and receives its assets through [addAsset]. *)

Module CollectibleAsset.
Record t := mk {
  id : string;
  name : string;
  description : string;
  category : string;
  mint : string;
  totalSupply : Q;
  circulatingSupply : Q;
  currentPrice : Q;
  priceHistory : nat;
  createdAt : Z;
  updatedAt : Z
}.
End CollectibleAsset.

(** The argument of [addAsset]: an asset without id and dates, whose
    price history is the content of the array received. *)
Module NewAsset.
Record t := mk {
  name : string;
  description : string;
  category : string;
  mint : string;
  totalSupply : Q;
  circulatingSupply : Q;
  currentPrice : Q;
  priceHistory : list PricePoint.t
}.
End NewAsset.

Module AssetManager.

Record t := mk {
  objects : list CollectibleAsset.t;
  arrays : list (list PricePoint.t);
  assets : gmap string nat;
  priceHistory : gmap string nat
}.

Definition new : t := mk [] [] ∅ ∅.

(** [name.toLowerCase().replace(/[^a-z0-9]/g, "-")] on ASCII names. *)
Definition slugChar (c : ascii) : ascii :=
  let n := nat_of_ascii c in
  if (65 <=? n)%nat && (n <=? 90)%nat then ascii_of_nat (n + 32)
  else if ((97 <=? n)%nat && (n <=? 122)%nat) || ((48 <=? n)%nat && (n <=? 57)%nat)
  then c
  else "-"%char.

Fixpoint slug (s : string) : string :=
  match s with
  | EmptyString => EmptyString
  | String c s' => String (slugChar c) (slug s')
  end.

Definition generateAssetId (name timestamp : string) : string :=
  slug name ++ "-" ++ timestamp.

Definition getAsset (key : string) (m : t) : option CollectibleAsset.t :=
  match assets m !! key with
  | Some o => objects m !! o
  | None => None
  end.

Definition getAssetByMint (mint : string) : M t (option CollectibleAsset.t) :=
  do m <- get; ret (getAsset mint m).

Definition getAssetById (id : string) : M t (option CollectibleAsset.t) :=
  do m <- get; ret (getAsset id m).

Definition addAsset (now : Z) (timestamp : string) (asset : NewAsset.t)
  : M t string :=
  let id := generateAssetId (NewAsset.name asset) timestamp in
  exec modify (fun m =>
    let h := length (arrays m) in
    let o := length (objects m) in
    let newAsset :=
      CollectibleAsset.mk id
        (NewAsset.name asset) (NewAsset.description asset)
        (NewAsset.category asset) (NewAsset.mint asset)
        (NewAsset.totalSupply asset) (NewAsset.circulatingSupply asset)
        (NewAsset.currentPrice asset) h now now in
    mk (objects m ++ [newAsset])%list
       (arrays m ++ [NewAsset.priceHistory asset; []])%list
       (<[NewAsset.mint asset := o]> (<[id := o]> (assets m)))
       (<[NewAsset.mint asset := S h]> (priceHistory m)));
  ret id.

(** [history.slice(-1000)]. *)
Definition lastThousand {A} (l : list A) : list A :=
  skipn (length l - 1000) l.

Definition updateAssetPrice (now : Z) (assetMint : string) (newPrice : Q)
  : M t unit :=
  do m <- get;
  match assets m !! assetMint with
  | None => ret tt
  | Some o =>
      match objects m !! o with
      | None => ret tt
      | Some asset =>
          let newPricePoint :=
            PricePoint.mk now newPrice 0
              (newPrice * CollectibleAsset.totalSupply asset) in
          let h := CollectibleAsset.priceHistory asset in
          let pushed := (default [] (arrays m !! h) ++ [newPricePoint])%list in
          let arrays1 := <[h := pushed]> (arrays m) in
          let sliced := (1000 <? length pushed)%nat in
          let arrays2 :=
            if sliced then (arrays1 ++ [lastThousand pushed])%list else arrays1 in
          let h' := if sliced then length arrays1 else h in
          let asset' :=
            CollectibleAsset.mk
              (CollectibleAsset.id asset) (CollectibleAsset.name asset)
              (CollectibleAsset.description asset)
              (CollectibleAsset.category asset) (CollectibleAsset.mint asset)
              (CollectibleAsset.totalSupply asset)
              (CollectibleAsset.circulatingSupply asset)
              newPrice h' (CollectibleAsset.createdAt asset) now in
          modify (fun m =>
            mk (<[o := asset']> (objects m)) arrays2 (assets m)
               (<[assetMint := h']> (priceHistory m)))
      end
  end.

(** The price history of the asset stored under a key. *)
Definition historyOf (key : string) (m : t) : option (list PricePoint.t) :=
  match getAsset key m with
  | Some asset => arrays m !! CollectibleAsset.priceHistory asset
  | None => None
  end.

Definition getTotalAssets : M t nat :=
  do m <- get; ret (size (assets m)).

Definition removeAsset (assetId : string) : M t bool :=
  do m <- get;
  match getAsset assetId m with
  | None => ret false
  | Some asset =>
      exec modify (fun m =>
        mk (objects m) (arrays m)
           (delete (CollectibleAsset.mint asset) (delete assetId (assets m)))
           (delete (CollectibleAsset.mint asset) (priceHistory m)));
      ret true
  end.

Inductive Timeframe := Hour1 | Hours24 | Days7 | Days30 | Year1.

(** The length in milliseconds that [getPriceHistory] gives a timeframe. *)
Definition span (timeframe : Timeframe) : Z :=
  match timeframe with
  | Hour1 => 60 * 60 * 1000
  | Hours24 => 24 * 60 * 60 * 1000
  | Days7 => 7 * 24 * 60 * 60 * 1000
  | Days30 => 30 * 24 * 60 * 60 * 1000
  | Year1 => 365 * 24 * 60 * 60 * 1000
  end.

Definition getPriceHistory (now : Z) (assetMint : string) (timeframe : Timeframe)
  : M t (list PricePoint.t) :=
  do m <- get;
  match priceHistory m !! assetMint with
  | None => ret []
  | Some h =>
      let history := default [] (arrays m !! h) in
      ret (List.filter
             (fun point => (now - span timeframe <=? PricePoint.timestamp point)%Z)
             history)
  end.

End AssetManager.

(** ** The wallet ([src/core/Wallet.ts], connection state) *)

Module Wallet.

Record t := mk {
  publicKey : option PublicKey;
  connected : bool
}.

Definition new : t := mk None false.

Definition isConnected (w : t) : bool :=
  connected w && match publicKey w with Some _ => true | None => false end.

Definition getPublicKey (w : t) : option PublicKey := publicKey w.

End Wallet.

(** ** The platform ([src/core/CollectFi.ts]) *)

Module CollectFi.

Record t := mk {
  assetManager : AssetManager.t;
  tradingEngine : TradingEngine.t;
  vaultManager : VaultManager.t;
  wallet : Wallet.t
}.

Definition new (key : option PublicKey) : t :=
  mk AssetManager.new (TradingEngine.new key) VaultManager.new Wallet.new.

(** Calls into the managers. *)
Definition onTradingEngine {A} (c : M TradingEngine.t A) : M t A :=
  fun p =>
    let (r, e) := c (tradingEngine p) in
    (r, mk (assetManager p) e (vaultManager p) (wallet p)).

Definition onVaultManager {A} (c : M VaultManager.t A) : M t A :=
  fun p =>
    let (r, v) := c (vaultManager p) in
    (r, mk (assetManager p) (tradingEngine p) v (wallet p)).

(** [this.wallet.getPublicKey()!]: the assertion holds after the
    [isConnected] test. *)
Definition theKey (p : t) : PublicKey :=
  default "" (Wallet.getPublicKey (wallet p)).

Definition getUserPortfolio (walletAddress : string)
  : M t (option UserPortfolio.t) :=
  onTradingEngine (TradingEngine.getUserPortfolio walletAddress).

Definition buyTokens (now : Z) (assetMint : string) (quantity : Q)
    (maxPrice : option Q) : M t Transaction :=
  do p <- get;
  if negb (Wallet.isConnected (wallet p))
  then throw (CollectFiError "WALLET_NOT_CONNECTED")
  else onTradingEngine
         (TradingEngine.buyTokens now assetMint quantity (theKey p) maxPrice).

Definition sellTokens (now : Z) (assetMint : string) (quantity : Q)
    (minPrice : option Q) : M t Transaction :=
  do p <- get;
  if negb (Wallet.isConnected (wallet p))
  then throw (CollectFiError "WALLET_NOT_CONNECTED")
  else onTradingEngine
         (TradingEngine.sellTokens now assetMint quantity (theKey p) minPrice).

Definition placeLimitOrder (now : Z) (orderId : string) (assetMint : string)
    (side : TradeSide) (quantity price : Q) : M t string :=
  do p <- get;
  if negb (Wallet.isConnected (wallet p))
  then throw (CollectFiError "WALLET_NOT_CONNECTED")
  else onTradingEngine
         (TradingEngine.placeLimitOrder now orderId assetMint side quantity price
            (theKey p)).

Definition cancelOrder (orderId : string) : M t bool :=
  do p <- get;
  if negb (Wallet.isConnected (wallet p))
  then throw (CollectFiError "WALLET_NOT_CONNECTED")
  else onTradingEngine (TradingEngine.cancelOrder orderId (theKey p)).

Definition requestRedemption (now : Z) (requestId : string)
    (assetMint : string) (shippingAddress : ShippingAddress.t) : M t string :=
  do p <- get;
  if negb (Wallet.isConnected (wallet p))
  then throw (CollectFiError "WALLET_NOT_CONNECTED")
  else
    do portfolio <- getUserPortfolio (theKey p);
    let asset :=
      match portfolio with
      | Some pf => find (TradingEngine.hasMint assetMint) (UserPortfolio.assets pf)
      | None => None
      end in
    match asset with
    | None => throw (CollectFiError "INSUFFICIENT_TOKENS_FOR_REDEMPTION")
    | Some a =>
        if ltb (PortfolioAsset.quantity a) 100000
        then throw (CollectFiError "INSUFFICIENT_TOKENS_FOR_REDEMPTION")
        else onVaultManager
               (VaultManager.requestRedemption now requestId assetMint
                  (theKey p) shippingAddress)
    end.

End CollectFi.

(** * Vocabulary of the properties *)

(** ** Running a computation *)

Definition result {S A} (c : M S A) (s : S) : Outcome A := fst (c s).
Definition after {S A} (c : M S A) (s : S) : S := snd (c s).

(** ** Positions

    [portfolio?.assets.find((a) => a.mint === assetMint)] is the expression
    by which [sellTokens] and [requestRedemption] read the position of an
    account in an asset. *)

Definition position (e : TradingEngine.t) (walletAddress assetMint : string)
  : option PortfolioAsset.t :=
  match TradingEngine.portfolios e !! walletAddress with
  | Some p => find (TradingEngine.hasMint assetMint) (UserPortfolio.assets p)
  | None => None
  end.

(** The quantity and average price on which a trade operates: those of
    the entry found, or of the fresh entry (0, 0) pushed when none is. *)
Definition held (e : TradingEngine.t) (walletAddress assetMint : string) : Q :=
  match position e walletAddress assetMint with
  | Some a => PortfolioAsset.quantity a
  | None => 0
  end.

Definition heldAt (e : TradingEngine.t) (walletAddress assetMint : string) : Q :=
  match position e walletAddress assetMint with
  | Some a => PortfolioAsset.averagePrice a
  | None => 0
  end.

Definition positive (a : PortfolioAsset.t) : Prop := 0 < PortfolioAsset.quantity a.

Definition keeps (a : PortfolioAsset.t) : bool := gtb (PortfolioAsset.quantity a) 0.

Definition mints (l : list PortfolioAsset.t) : list string :=
  map PortfolioAsset.mint l.

(** Every stored entry has a positive quantity. *)
Definition allPositive (e : TradingEngine.t) : Prop :=
  forall w p, TradingEngine.portfolios e !! w = Some p ->
    Forall positive (UserPortfolio.assets p).

(** No portfolio has two entries for one mint. *)
Definition distinct (e : TradingEngine.t) : Prop :=
  map_Forall (fun _ p => NoDup (mints (UserPortfolio.assets p)))
    (TradingEngine.portfolios e).

(** ** The steps of [updateUserPortfolio] *)

(** The portfolio object on which the update works. *)
Definition stored (e : TradingEngine.t) (w : string) : UserPortfolio.t :=
  match TradingEngine.portfolios e !! w with
  | Some p => p
  | None => TradingEngine.newPortfolio w
  end.

(** Its array once the entry of the asset is there. *)
Definition slot (m : string) (l : list PortfolioAsset.t) : list PortfolioAsset.t :=
  match find (TradingEngine.hasMint m) l with
  | Some _ => l
  | None => (l ++ [TradingEngine.newAsset m])%list
  end.

(** The entry of the asset before the trade, and after it. *)
Definition entry (e : TradingEngine.t) (w m : string) : PortfolioAsset.t :=
  match position e w m with
  | Some a => a
  | None => TradingEngine.newAsset m
  end.

Definition traded (e : TradingEngine.t) (m : string) (side : TradeSide)
    (q price : Q) (a : PortfolioAsset.t) : PortfolioAsset.t :=
  TradingEngine.revalue (TradingEngine.marketData e !! m)
    (TradingEngine.applySide side q price a).

(** The engine after the market data and the portfolio were updated for
    one trade. *)
Definition settled (now : Z) (w m : string) (q price : Q) (side : TradeSide)
    (e : TradingEngine.t) : TradingEngine.t :=
  after (TradingEngine.updateUserPortfolio w m q price side)
    (after (TradingEngine.updateMarketDataAfterTrade now m q side price) e).

(** ** Sequences of trades *)

(** A step of the position store: a fill applied directly
    ([updateUserPortfolio]) or a call of [buyTokens] or [sellTokens]. *)
Inductive Call :=
| Fill (walletAddress assetMint : string) (quantity price : Q) (side : TradeSide)
| BuyTokens (now : Z) (assetMint : string) (quantity : Q)
    (buyerPublicKey : PublicKey) (maxPrice : option Q)
| SellTokens (now : Z) (assetMint : string) (quantity : Q)
    (sellerPublicKey : PublicKey) (minPrice : option Q).

Definition perform (c : Call) (e : TradingEngine.t) : TradingEngine.t :=
  match c with
  | Fill w m q price side =>
      after (TradingEngine.updateUserPortfolio w m q price side) e
  | BuyTokens now m q w maxPrice =>
      after (TradingEngine.buyTokens now m q w maxPrice) e
  | SellTokens now m q w minPrice =>
      after (TradingEngine.sellTokens now m q w minPrice) e
  end.

(** The states reached after each step of a sequence. *)
Fixpoint history (cs : list Call) (e : TradingEngine.t) : list TradingEngine.t :=
  match cs with
  | [] => []
  | c :: cs' => let e' := perform c e in e' :: history cs' e'
  end.

(** ** The order book *)

(** The quantity resting on one side of the book of an asset: the
    pending limit orders of that side kept in the order map. *)
Definition rests (m : string) (side : OrderSide.t) (o : TradingOrder.t) : bool :=
  String.eqb (TradingOrder.assetMint o) m
  && OrderStatus.eqb (TradingOrder.status o) OrderStatus.PENDING
  && match TradingOrder.side o, side with
     | OrderSide.BUY, OrderSide.BUY | OrderSide.SELL, OrderSide.SELL => true
     | _, _ => false
     end.

Definition resting (e : TradingEngine.t) (m : string) (side : OrderSide.t) : Q :=
  map_fold (fun _ o acc => if rests m side o then acc + TradingOrder.quantity o else acc)
    0 (TradingEngine.orders e).

(** The sentence of the specification on market buys: one that the asks
    of the book cannot meet in full fails, and commits nothing. *)
Definition market_buy_fails_without_liquidity (now : Z) (m : string) (q : Q)
    (w : PublicKey) (e : TradingEngine.t) : Prop :=
  resting e m OrderSide.SELL < q ->
  exists x, TradingEngine.buyTokens now m q w None e = (Thrown x, e).

(** The sentence of the specification on repeated cancels: a cancel
    request for a stored order that is no longer pending fails as not
    cancellable and changes nothing, whichever account sends it. *)
Definition cancel_of_terminal_not_cancellable (orderId : string) (w : PublicKey)
    (e : TradingEngine.t) : Prop :=
  forall order,
    TradingEngine.orders e !! orderId = Some order ->
    TradingOrder.status order <> OrderStatus.PENDING ->
    TradingEngine.cancelOrder orderId w e
    = (Thrown (CollectFiError "ORDER_NOT_CANCELLABLE"), e).

(** ** Redemption requests *)

(** The total supply of an asset, from the market data of the engine. *)
Definition supply (p : CollectFi.t) (m : string) : Q :=
  match TradingEngine.marketData (CollectFi.tradingEngine p) !! m with
  | Some md => MarketData.totalSupply md
  | None => 0
  end.

(** The quantity that the connected account holds of an asset. *)
Definition holding (p : CollectFi.t) (m : string) : Q :=
  held (CollectFi.tradingEngine p) (CollectFi.theKey p) m.

(** The request created by a successful call. *)
Definition pendingRequest (now : Z) (requestId m : string) (w : PublicKey)
    (shippingAddress : ShippingAddress.t) : RedemptionRequest.t :=
  RedemptionRequest.mk requestId w m 100000 RedemptionStatus.PENDING now None
    shippingAddress None.

(** The platform with one more redemption request. *)
Definition withRequest (requestId : string) (r : RedemptionRequest.t)
    (p : CollectFi.t) : CollectFi.t :=
  CollectFi.mk (CollectFi.assetManager p) (CollectFi.tradingEngine p)
    (VaultManager.mk
       (<[requestId := r]>
          (VaultManager.redemptionRequests (CollectFi.vaultManager p))))
    (CollectFi.wallet p).

(** The sentence of the specification: the call succeeds exactly when
    the holding equals the total supply. *)
Definition redeems_iff_whole_supply (now : Z) (requestId m : string)
    (shippingAddress : ShippingAddress.t) (p : CollectFi.t) : Prop :=
  (exists id,
     result (CollectFi.requestRedemption now requestId m shippingAddress) p
     = Returned id)
  <-> holding p m == supply p m.

(** The transitions of the redemption state machine. *)
Inductive advances : RedemptionStatus.t -> RedemptionStatus.t -> Prop :=
| advances_process : advances RedemptionStatus.PENDING RedemptionStatus.PROCESSING
| advances_ship : advances RedemptionStatus.PROCESSING RedemptionStatus.SHIPPED
| advances_deliver : advances RedemptionStatus.SHIPPED RedemptionStatus.DELIVERED
| advances_cancel : advances RedemptionStatus.PENDING RedemptionStatus.CANCELLED.

Definition statusOf (requestId : string) (v : VaultManager.t)
  : option RedemptionStatus.t :=
  RedemptionRequest.status <$> VaultManager.redemptionRequests v !! requestId.

(** The four guarded methods of the vault manager. *)
Inductive Guarded :=
| ProcessRedemption
| ShipRedemption (trackingNumber : string)
| MarkRedemptionDelivered
| CancelRedemption (userId : string).

Definition guarded (now : Z) (requestId : string) (g : Guarded)
  : M VaultManager.t bool :=
  match g with
  | ProcessRedemption => VaultManager.processRedemption now requestId
  | ShipRedemption t => VaultManager.shipRedemption now requestId t
  | MarkRedemptionDelivered => VaultManager.markRedemptionDelivered now requestId
  | CancelRedemption u => VaultManager.cancelRedemption now requestId u
  end.

(** What a guarded method requires of the current status and owner. *)
Definition guard (g : Guarded) (r : RedemptionRequest.t) : option Exception :=
  match g with
  | ProcessRedemption =>
      if negb (RedemptionStatus.eqb (RedemptionRequest.status r)
                 RedemptionStatus.PENDING)
      then Some (CollectFiError "INVALID_REDEMPTION_STATUS") else None
  | ShipRedemption _ =>
      if negb (RedemptionStatus.eqb (RedemptionRequest.status r)
                 RedemptionStatus.PROCESSING)
      then Some (CollectFiError "INVALID_REDEMPTION_STATUS") else None
  | MarkRedemptionDelivered =>
      if negb (RedemptionStatus.eqb (RedemptionRequest.status r)
                 RedemptionStatus.SHIPPED)
      then Some (CollectFiError "INVALID_REDEMPTION_STATUS") else None
  | CancelRedemption u =>
      if negb (String.eqb (RedemptionRequest.userId r) u)
      then Some (CollectFiError "UNAUTHORIZED")
      else if negb (RedemptionStatus.eqb (RedemptionRequest.status r)
                      RedemptionStatus.PENDING)
      then Some (CollectFiError "REDEMPTION_NOT_CANCELLABLE") else None
  end.

(** The status that it sets, and the tracking number that it passes. *)
Definition target (g : Guarded) : RedemptionStatus.t * option string :=
  match g with
  | ProcessRedemption => (RedemptionStatus.PROCESSING, None)
  | ShipRedemption t => (RedemptionStatus.SHIPPED, Some t)
  | MarkRedemptionDelivered => (RedemptionStatus.DELIVERED, None)
  | CancelRedemption _ => (RedemptionStatus.CANCELLED, None)
  end.

(** ** Price history *)

(** The newest point of the price history of the asset under a key. *)
Definition latestPoint (key : string) (m : AssetManager.t) : option PricePoint.t :=
  match AssetManager.historyOf key m with
  | Some l => last l
  | None => None
  end.

(** The sentence of the specification on the price ledger: the market
    capitalisation recorded with a price is that price times the
    circulating supply. *)
Definition cap_is_price_times_circulating (now : Z) (key : string) (price : Q)
    (m : AssetManager.t) : Prop :=
  forall asset pt,
    AssetManager.getAsset key m = Some asset ->
    latestPoint key (after (AssetManager.updateAssetPrice now key price) m)
    = Some pt ->
    PricePoint.marketCap pt == price * CollectibleAsset.circulatingSupply asset.

(** ** Sessions of the trading engine *)

(** The calls that change the engine. *)
Inductive Request :=
| ReqBuy (now : Z) (assetMint : string) (quantity : Q)
    (buyerPublicKey : PublicKey) (maxPrice : option Q)
| ReqSell (now : Z) (assetMint : string) (quantity : Q)
    (sellerPublicKey : PublicKey) (minPrice : option Q)
| ReqPlace (now : Z) (orderId assetMint : string) (side : TradeSide)
    (quantity price : Q) (userPublicKey : PublicKey)
| ReqCancel (orderId : string) (userPublicKey : PublicKey).

Definition serve (r : Request) (e : TradingEngine.t) : TradingEngine.t :=
  match r with
  | ReqBuy now m q w maxPrice =>
      after (TradingEngine.buyTokens now m q w maxPrice) e
  | ReqSell now m q w minPrice =>
      after (TradingEngine.sellTokens now m q w minPrice) e
  | ReqPlace now orderId m side q price w =>
      after (TradingEngine.placeLimitOrder now orderId m side q price w) e
  | ReqCancel orderId w =>
      after (TradingEngine.cancelOrder orderId w) e
  end.

Definition session (rs : list Request) (e : TradingEngine.t) : TradingEngine.t :=
  fold_left (fun e r => serve r e) rs e.

(** The price and the supplies under which an asset is listed. *)
Definition listing (e : TradingEngine.t) (m : string) : option (Q * Q * Q) :=
  (fun md =>
     (MarketData.currentPrice md, MarketData.totalSupply md,
      MarketData.circulatingSupply md))
  <$> TradingEngine.marketData e !! m.

(** Every stored order is pending or cancelled. *)
Definition unexecuted (e : TradingEngine.t) : Prop :=
  map_Forall
    (fun _ o =>
       TradingOrder.status o = OrderStatus.PENDING
       \/ TradingOrder.status o = OrderStatus.CANCELLED)
    (TradingEngine.orders e).

(** An array of orders taken from the order map. *)
Definition stocked (e : TradingEngine.t) (values : list TradingOrder.t) : Prop :=
  Forall (fun o => exists orderId, TradingEngine.orders e !! orderId = Some o) values.

(** An engine with listed assets, before any order or trade. *)
Definition opening (key : option PublicKey) (marketData : gmap string MarketData.t)
  : TradingEngine.t :=
  TradingEngine.mk key ∅ ∅ marketData.

(** The order that [placeLimitOrder] stores. *)
Definition placed (now : Z) (orderId m : string) (side : TradeSide)
    (q price : Q) (w : PublicKey) (status : OrderStatus.t) : TradingOrder.t :=
  TradingOrder.mk orderId w m OrderType.LIMIT
    (match side with buy => OrderSide.BUY | sell => OrderSide.SELL end)
    q price status now None None.

(** Orders from the newest to the oldest. *)
Definition newestFirstSorted (l : list TradingOrder.t) : Prop :=
  StronglySorted
    (fun a b => (TradingOrder.createdAt b <= TradingOrder.createdAt a)%Z) l.

(** ** The life of a redemption request *)

Definition requestOf (requestId : string) (v : VaultManager.t)
  : option RedemptionRequest.t :=
  VaultManager.redemptionRequests v !! requestId.

(** The fields of a request that no status change touches. *)
Definition identity (r : RedemptionRequest.t)
  : string * string * string * Q * Z * ShippingAddress.t :=
  (RedemptionRequest.id r, RedemptionRequest.userId r,
   RedemptionRequest.assetMint r, RedemptionRequest.tokenQuantity r,
   RedemptionRequest.requestedAt r, RedemptionRequest.shippingAddress r).

Definition final (s : RedemptionStatus.t) : Prop :=
  s = RedemptionStatus.DELIVERED \/ s = RedemptionStatus.CANCELLED.

(** ** A running example *)

Definition rolex1 : string := "ROLEXDAYTONA1mintaddress123456789".

(** An engine configured with a well-formed program id, initialised. *)
Definition engine0 : TradingEngine.t :=
  after (TradingEngine.initialize 0)
    (TradingEngine.new (Some "11111111111111111111111111111111")).

(** Alice has bought 100 tokens at the market price of 180. *)
Definition engineA : TradingEngine.t :=
  perform (BuyTokens 1 rolex1 100 "alice" None) engine0.

(** Alice places a limit order and cancels it. *)
Definition engineB : TradingEngine.t :=
  after (TradingEngine.cancelOrder "order_2_k3x9" "alice")
    (after (TradingEngine.placeLimitOrder 2 "order_2_k3x9" rolex1 sell 50 190 "alice")
       engineA).

Definition orderB : TradingOrder.t :=
  TradingOrder.mk "order_2_k3x9" "alice" rolex1 OrderType.LIMIT OrderSide.SELL
    50 190 OrderStatus.CANCELLED 2 None None.

Definition home : ShippingAddress.t :=
  ShippingAddress.mk "Alice" "Doe" "1 Main Street" "Dover" "DE" "19901" "US"
    "5550100".

(** A platform whose wallet is connected as alice. *)
Definition platform0 : CollectFi.t :=
  CollectFi.mk AssetManager.new engine0 VaultManager.new
    (Wallet.mk (Some "alice") true).

(** Alice buys one token more than the supply of the asset. *)
Definition platform1 : CollectFi.t :=
  after (CollectFi.buyTokens 1 rolex1 100001 None) platform0.

(** A request that the methods of a new vault manager take through the
    whole machine. *)
Definition redemptionId : string := "redemption_2_ab12".

Definition vaultPending : VaultManager.t :=
  after (VaultManager.requestRedemption 2 redemptionId rolex1 "alice" home)
    VaultManager.new.

Definition vaultProcessing : VaultManager.t :=
  after (VaultManager.processRedemption 3 redemptionId) vaultPending.

Definition vaultDelivered : VaultManager.t :=
  after (VaultManager.markRedemptionDelivered 5 redemptionId)
    (after (VaultManager.shipRedemption 4 redemptionId "TRACK-1") vaultProcessing).

Definition adminPut (status : string) : VaultRoute.Request :=
  VaultRoute.mkRequest (Some ["admin:redemption"]) redemptionId status None.

(** An asset of which 60000 of the 100000 tokens circulate. *)
Definition card : NewAsset.t :=
  NewAsset.mk "Charizard 1st Edition" "PSA 10 holographic card" "trading_cards"
    "CHARIZARDmint1" 100000 60000 3 [].

Definition managerC : AssetManager.t :=
  after (AssetManager.addAsset 1 "1700000000000" card) AssetManager.new.

(** * Properties *)

(** ** Comparisons *)

Lemma ltb_lt (x y : Q) : ltb x y = true <-> x < y.
Proof.
  unfold ltb. rewrite negb_true_iff, <- not_true_iff_false, Qle_bool_iff.
  split; [apply Qnot_le_lt | apply Qlt_not_le].
Qed.

Lemma ltb_ge (x y : Q) : ltb x y = false <-> y <= x.
Proof.
  unfold ltb. rewrite negb_false_iff. apply Qle_bool_iff.
Qed.

Lemma gtb_gt (x y : Q) : gtb x y = true <-> y < x.
Proof. apply ltb_lt. Qed.

Lemma gtb_le (x y : Q) : gtb x y = false <-> x <= y.
Proof. apply ltb_ge. Qed.

Lemma distinct_lookup e w p :
  distinct e -> TradingEngine.portfolios e !! w = Some p ->
  List.NoDup (mints (UserPortfolio.assets p)).
Proof. intros Hd Hl. apply NoDup_ListNoDup. exact (Hd w p Hl). Qed.

Section Entries.

Variable assetMint : string.
Variable f : PortfolioAsset.t -> PortfolioAsset.t.
Hypothesis f_mint : forall a, PortfolioAsset.mint (f a) = PortfolioAsset.mint a.

Local Abbreviation has := (TradingEngine.hasMint assetMint).

Lemma has_iff a : has a = true <-> PortfolioAsset.mint a = assetMint.
Proof. apply String.eqb_eq. Qed.

Lemma has_f a : has (f a) = has a.
Proof. unfold TradingEngine.hasMint. now rewrite f_mint. Qed.

Lemma find_none_mints l : find has l = None -> ~ In assetMint (mints l).
Proof.
  intros Hn Hin. apply in_map_iff in Hin as (a & Ha & Hin).
  apply (find_none _ _ Hn) in Hin. apply has_iff in Ha. congruence.
Qed.

Lemma not_in_find_none l : ~ In assetMint (mints l) -> find has l = None.
Proof.
  induction l as [|a l IH]; simpl; intros Hn; [reflexivity|].
  destruct (has a) eqn:Ha.
  - apply has_iff in Ha. tauto.
  - apply IH. tauto.
Qed.

Lemma mints_mutateFound l :
  mints (TradingEngine.mutateFound assetMint f l) = mints l.
Proof.
  induction l as [|a l IH]; simpl; [reflexivity|].
  destruct (has a); simpl; [now rewrite f_mint | now rewrite IH].
Qed.

Lemma mutateFound_fresh l a :
  find has l = None -> has a = true ->
  TradingEngine.mutateFound assetMint f (l ++ [a]) = (l ++ [f a])%list.
Proof.
  intros Hn Ha. induction l as [|b l IH]; simpl in *.
  - now rewrite Ha.
  - destruct (has b); [discriminate|]. now rewrite IH.
Qed.

Lemma find_filter_none (P : PortfolioAsset.t -> bool) l :
  find has l = None -> find has (List.filter P l) = None.
Proof.
  induction l as [|b l IH]; simpl; [reflexivity|].
  destruct (has b) eqn:Hb; [discriminate|]. intros Hn.
  destruct (P b); simpl; [rewrite Hb|]; auto.
Qed.

(** Reading the entry back after it was changed in place and the array
    filtered: the first entry found needs no distinctness to be kept. *)
Lemma find_kept (P : PortfolioAsset.t -> bool) l a :
  find has l = Some a -> P (f a) = true ->
  find has (List.filter P (TradingEngine.mutateFound assetMint f l)) = Some (f a).
Proof.
  induction l as [|b l IH]; simpl; [discriminate|].
  destruct (has b) eqn:Hb; intros Hf HP.
  - injection Hf as ->. simpl. rewrite HP. simpl. now rewrite has_f, Hb.
  - simpl. destruct (P b); simpl; [rewrite Hb|]; auto.
Qed.

Lemma find_dropped (P : PortfolioAsset.t -> bool) l a :
  List.NoDup (mints l) -> find has l = Some a -> P (f a) = false ->
  find has (List.filter P (TradingEngine.mutateFound assetMint f l)) = None.
Proof.
  induction l as [|b l IH]; simpl; [discriminate|].
  intros Hnd. apply NoDup_cons_iff in Hnd as [Hnotin Hnd].
  destruct (has b) eqn:Hb; intros Hf HP.
  - injection Hf as ->. simpl. rewrite HP.
    apply find_filter_none, not_in_find_none.
    apply has_iff in Hb. now rewrite <- Hb.
  - simpl. destruct (P b); simpl; [rewrite Hb|]; auto.
Qed.

Lemma find_fresh_kept (P : PortfolioAsset.t -> bool) l a :
  find has l = None -> has a = true -> P (f a) = true ->
  find has (List.filter P (TradingEngine.mutateFound assetMint f (l ++ [a])))
  = Some (f a).
Proof.
  intros Hn Ha HP. rewrite mutateFound_fresh by assumption.
  rewrite List.filter_app. simpl. rewrite HP.
  induction l as [|b l IH]; simpl in *.
  - now rewrite has_f, Ha.
  - destruct (has b) eqn:Hb; [discriminate|].
    destruct (P b); simpl; [rewrite Hb|]; auto.
Qed.

Lemma find_fresh_dropped (P : PortfolioAsset.t -> bool) l a :
  find has l = None -> has a = true -> P (f a) = false ->
  find has (List.filter P (TradingEngine.mutateFound assetMint f (l ++ [a])))
  = None.
Proof.
  intros Hn Ha HP. rewrite mutateFound_fresh by assumption.
  rewrite List.filter_app. simpl. rewrite HP, app_nil_r.
  now apply find_filter_none.
Qed.

End Entries.

Lemma filter_keeps_positive l : Forall positive (List.filter keeps l).
Proof.
  apply List.Forall_forall. intros a Ha. apply filter_In in Ha as [_ Ha].
  now apply gtb_gt in Ha.
Qed.

Lemma NoDup_mints_filter (P : PortfolioAsset.t -> bool) l :
  List.NoDup (mints l) -> List.NoDup (mints (List.filter P l)).
Proof.
  induction l as [|a l IH]; simpl; intros Hnd; [constructor|].
  apply NoDup_cons_iff in Hnd as [Hnotin Hnd].
  destruct (P a); simpl; auto.
  apply NoDup_cons_iff. split; auto.
  intros Hin. apply Hnotin. apply in_map_iff in Hin as (b & Hb & Hin).
  apply filter_In in Hin as [Hin _]. apply in_map_iff. eauto.
Qed.

(** ** What [updateUserPortfolio] stores *)

Lemma traded_mint e m side q price a :
  PortfolioAsset.mint (traded e m side q price a) = PortfolioAsset.mint a.
Proof.
  unfold traded, TradingEngine.revalue.
  destruct (TradingEngine.marketData e !! m), side; reflexivity.
Qed.

Lemma traded_quantity e m side q price a :
  PortfolioAsset.quantity (traded e m side q price a)
  = PortfolioAsset.quantity (TradingEngine.applySide side q price a).
Proof.
  unfold traded, TradingEngine.revalue.
  destruct (TradingEngine.marketData e !! m); reflexivity.
Qed.

Lemma traded_averagePrice e m side q price a :
  PortfolioAsset.averagePrice (traded e m side q price a)
  = PortfolioAsset.averagePrice (TradingEngine.applySide side q price a).
Proof.
  unfold traded, TradingEngine.revalue.
  destruct (TradingEngine.marketData e !! m); reflexivity.
Qed.

Lemma updateUserPortfolio_returns e w m q price side :
  result (TradingEngine.updateUserPortfolio w m q price side) e = Returned tt.
Proof. reflexivity. Qed.

Lemma updateUserPortfolio_stores e w m q price side :
  exists p',
    TradingEngine.portfolios
      (after (TradingEngine.updateUserPortfolio w m q price side) e)
    = <[w := p']> (TradingEngine.portfolios e)
    /\ UserPortfolio.assets p'
       = List.filter keeps
           (TradingEngine.mutateFound m (traded e m side q price)
              (slot m (UserPortfolio.assets (stored e w)))).
Proof. eexists. split; reflexivity. Qed.

Lemma updateUserPortfolio_frame e w m q price side :
  let e' := after (TradingEngine.updateUserPortfolio w m q price side) e in
  TradingEngine.orders e' = TradingEngine.orders e
  /\ TradingEngine.marketData e' = TradingEngine.marketData e
  /\ TradingEngine.programKey e' = TradingEngine.programKey e
  /\ forall w', w' <> w ->
       TradingEngine.portfolios e' !! w' = TradingEngine.portfolios e !! w'.
Proof.
  repeat split. intros w' Hw.
  destruct (updateUserPortfolio_stores e w m q price side) as (p' & -> & _).
  now apply lookup_insert_ne.
Qed.

Lemma position_after e w m q price side :
  position (after (TradingEngine.updateUserPortfolio w m q price side) e) w m
  = find (TradingEngine.hasMint m)
      (List.filter keeps
         (TradingEngine.mutateFound m (traded e m side q price)
            (slot m (UserPortfolio.assets (stored e w))))).
Proof.
  destruct (updateUserPortfolio_stores e w m q price side) as (p' & Hp & Ha).
  unfold position. now rewrite Hp, lookup_insert_eq, Ha.
Qed.

Lemma newAsset_has m : TradingEngine.hasMint m (TradingEngine.newAsset m) = true.
Proof. apply String.eqb_refl. Qed.

Lemma position_stored e w m :
  position e w m = find (TradingEngine.hasMint m) (UserPortfolio.assets (stored e w)).
Proof.
  unfold position, stored.
  destruct (TradingEngine.portfolios e !! w); reflexivity.
Qed.

(** The entry is read back after the trade when its new quantity is
    positive. *)
Lemma position_kept e w m q price side :
  keeps (traded e m side q price (entry e w m)) = true ->
  position (after (TradingEngine.updateUserPortfolio w m q price side) e) w m
  = Some (traded e m side q price (entry e w m)).
Proof.
  intros Hk. rewrite position_after. unfold entry, slot in *.
  rewrite position_stored in Hk. rewrite position_stored.
  destruct (find _ (UserPortfolio.assets (stored e w))) as [a|] eqn:Hf.
  - apply find_kept; auto using traded_mint.
  - apply find_fresh_kept; auto using traded_mint, newAsset_has.
Qed.

(** It is absent after the trade when its new quantity is not. *)
Lemma position_dropped e w m q price side :
  distinct e ->
  keeps (traded e m side q price (entry e w m)) = false ->
  position (after (TradingEngine.updateUserPortfolio w m q price side) e) w m
  = None.
Proof.
  intros Hd Hk. rewrite position_after. unfold entry, slot in *.
  rewrite position_stored in Hk.
  destruct (find _ (UserPortfolio.assets (stored e w))) as [a|] eqn:Hf.
  - apply find_dropped with (a := a); auto using traded_mint.
    unfold stored. destruct (TradingEngine.portfolios e !! w) eqn:Hp.
    + eapply distinct_lookup; eauto.
    + constructor.
  - apply find_fresh_dropped; auto using traded_mint, newAsset_has.
Qed.

(** The two invariants of the portfolio map. *)
Lemma updateUserPortfolio_allPositive e w m q price side :
  allPositive e ->
  allPositive (after (TradingEngine.updateUserPortfolio w m q price side) e).
Proof.
  intros Hpos w' p Hl.
  destruct (updateUserPortfolio_stores e w m q price side) as (p' & Hp & Ha).
  rewrite Hp in Hl. destruct (decide (w = w')) as [->|Hne].
  - rewrite lookup_insert_eq in Hl. injection Hl as <-.
    rewrite Ha. apply filter_keeps_positive.
  - rewrite lookup_insert_ne in Hl by assumption. eauto.
Qed.

Lemma updateUserPortfolio_distinct e w m q price side :
  distinct e ->
  distinct (after (TradingEngine.updateUserPortfolio w m q price side) e).
Proof.
  intros Hd w' p Hl.
  destruct (updateUserPortfolio_stores e w m q price side) as (p' & Hp & Ha).
  rewrite Hp in Hl. destruct (decide (w = w')) as [->|Hne].
  - rewrite lookup_insert_eq in Hl. injection Hl as <-.
    rewrite Ha. apply NoDup_ListNoDup, NoDup_mints_filter.
    rewrite mints_mutateFound by (intros; apply traded_mint).
    assert (Hs : List.NoDup (mints (UserPortfolio.assets (stored e w')))).
    { unfold stored. destruct (TradingEngine.portfolios e !! w') eqn:Hp'.
      - eapply distinct_lookup; eauto.
      - constructor. }
    unfold slot.
    destruct (find _ (UserPortfolio.assets (stored e w'))) eqn:Hf; [assumption|].
    unfold mints. rewrite map_app. simpl.
    apply List.NoDup_app.
    + exact Hs.
    + constructor; [intros []|constructor].
    + intros x Hx [<-|[]]. revert Hx. now apply find_none_mints.
  - rewrite lookup_insert_ne in Hl by assumption. exact (Hd w' p Hl).
Qed.

(** ** Sequences of trades *)

Lemma updateMarketDataAfterTrade_portfolios now m q side price e :
  TradingEngine.portfolios
    (after (TradingEngine.updateMarketDataAfterTrade now m q side price) e)
  = TradingEngine.portfolios e.
Proof.
  unfold after, TradingEngine.updateMarketDataAfterTrade, bind, get. simpl.
  destruct (TradingEngine.marketData e !! m); reflexivity.
Qed.

(** ** The trading methods, step by step *)

Lemma updateMarketDataAfterTrade_run now m q side price e :
  TradingEngine.updateMarketDataAfterTrade now m q side price e
  = (Returned tt,
     after (TradingEngine.updateMarketDataAfterTrade now m q side price) e).
Proof.
  unfold after, TradingEngine.updateMarketDataAfterTrade, bind, get, modify, ret.
  destruct (TradingEngine.marketData e !! m); reflexivity.
Qed.

Lemma updateUserPortfolio_run w m q price side e :
  TradingEngine.updateUserPortfolio w m q price side e
  = (Returned tt, after (TradingEngine.updateUserPortfolio w m q price side) e).
Proof. reflexivity. Qed.

Lemma buyTokens_run now m q w maxPrice e :
  TradingEngine.buyTokens now m q w maxPrice e
  = match TradingEngine.marketData e !! m with
    | None => (Thrown (CollectFiError "ASSET_NOT_FOUND"), e)
    | Some md =>
        let price := MarketData.currentPrice md in
        if truthy maxPrice && gtb price (default 0 maxPrice)
        then (Thrown (CollectFiError "PRICE_EXCEEDED"), e)
        else
          match TradingEngine.programKey e with
          | None => (Thrown (Error "Invalid public key input"), e)
          | Some k =>
              (Returned [TransactionInstruction.mk [] k []],
               settled now w m q price buy e)
          end
    end.
Proof.
  unfold TradingEngine.buyTokens. unfold bind at 1. unfold get at 1.
  destruct (TradingEngine.marketData e !! m) as [md|]; [|reflexivity].
  cbv zeta.
  destruct (truthy maxPrice && _); [reflexivity|].
  unfold bind at 1.
  unfold TradingEngine.createBuyInstruction, TradingEngine.createInstruction.
  unfold bind at 1. unfold get at 1.
  destruct (TradingEngine.programKey e); [|reflexivity].
  unfold ret at 1. unfold bind at 1.
  rewrite updateMarketDataAfterTrade_run.
  unfold bind at 1. rewrite updateUserPortfolio_run. reflexivity.
Qed.

Lemma sellTokens_run now m q w minPrice e :
  TradingEngine.sellTokens now m q w minPrice e
  = match TradingEngine.marketData e !! m with
    | None => (Thrown (CollectFiError "ASSET_NOT_FOUND"), e)
    | Some md =>
        let price := MarketData.currentPrice md in
        if truthy minPrice && ltb price (default 0 minPrice)
        then (Thrown (CollectFiError "PRICE_TOO_LOW"), e)
        else
          match position e w m with
          | None => (Thrown (CollectFiError "INSUFFICIENT_TOKENS"), e)
          | Some a =>
              if ltb (PortfolioAsset.quantity a) q
              then (Thrown (CollectFiError "INSUFFICIENT_TOKENS"), e)
              else
                match TradingEngine.programKey e with
                | None => (Thrown (Error "Invalid public key input"), e)
                | Some k =>
                    (Returned [TransactionInstruction.mk [] k []],
                     settled now w m q price sell e)
                end
          end
    end.
Proof.
  unfold TradingEngine.sellTokens. unfold bind at 1. unfold get at 1.
  destruct (TradingEngine.marketData e !! m) as [md|]; [|reflexivity].
  cbv zeta.
  destruct (truthy minPrice && _); [reflexivity|].
  unfold bind at 1. unfold TradingEngine.getUserPortfolio.
  unfold bind at 1. unfold get at 1. unfold ret at 1.
  unfold position.
  destruct (TradingEngine.portfolios e !! w) as [p|]; [|reflexivity].
  destruct (find _ (UserPortfolio.assets p)) as [a|]; [|reflexivity].
  destruct (ltb (PortfolioAsset.quantity a) q); [reflexivity|].
  unfold bind at 1.
  unfold TradingEngine.createSellInstruction, TradingEngine.createInstruction.
  unfold bind at 1. unfold get at 1.
  destruct (TradingEngine.programKey e); [|reflexivity].
  unfold ret at 1. unfold bind at 1.
  rewrite updateMarketDataAfterTrade_run.
  unfold bind at 1. rewrite updateUserPortfolio_run. reflexivity.
Qed.

Lemma settled_allPositive now w m q price side e :
  allPositive e -> allPositive (settled now w m q price side e).
Proof.
  intros H. apply updateUserPortfolio_allPositive.
  intros w' p. rewrite updateMarketDataAfterTrade_portfolios. apply H.
Qed.

Lemma settled_distinct now w m q price side e :
  distinct e -> distinct (settled now w m q price side e).
Proof.
  intros H. apply updateUserPortfolio_distinct.
  intros w' p. rewrite updateMarketDataAfterTrade_portfolios. apply H.
Qed.

(** Every step keeps the two invariants. *)
Lemma perform_allPositive c e : allPositive e -> allPositive (perform c e).
Proof.
  intros H. destruct c as [w m q price side|now m q w mx|now m q w mn]; simpl.
  - now apply updateUserPortfolio_allPositive.
  - unfold after. rewrite buyTokens_run.
    destruct (TradingEngine.marketData e !! m); [|exact H]. cbv zeta.
    destruct (truthy mx && _); [exact H|].
    destruct (TradingEngine.programKey e); [|exact H].
    now apply settled_allPositive.
  - unfold after. rewrite sellTokens_run.
    destruct (TradingEngine.marketData e !! m); [|exact H]. cbv zeta.
    destruct (truthy mn && _); [exact H|].
    destruct (position e w m); [|exact H].
    destruct (ltb _ q); [exact H|].
    destruct (TradingEngine.programKey e); [|exact H].
    now apply settled_allPositive.
Qed.

Lemma perform_distinct c e : distinct e -> distinct (perform c e).
Proof.
  intros H. destruct c as [w m q price side|now m q w mx|now m q w mn]; simpl.
  - now apply updateUserPortfolio_distinct.
  - unfold after. rewrite buyTokens_run.
    destruct (TradingEngine.marketData e !! m); [|exact H]. cbv zeta.
    destruct (truthy mx && _); [exact H|].
    destruct (TradingEngine.programKey e); [|exact H].
    now apply settled_distinct.
  - unfold after. rewrite sellTokens_run.
    destruct (TradingEngine.marketData e !! m); [|exact H]. cbv zeta.
    destruct (truthy mn && _); [exact H|].
    destruct (position e w m); [|exact H].
    destruct (ltb _ q); [exact H|].
    destruct (TradingEngine.programKey e); [|exact H].
    now apply settled_distinct.
Qed.

Lemma history_allPositive cs : forall e,
  allPositive e -> Forall allPositive (history cs e).
Proof.
  induction cs as [|c cs IH]; intros e H; simpl; constructor.
  - now apply perform_allPositive.
  - apply IH. now apply perform_allPositive.
Qed.

Lemma history_distinct cs : forall e,
  distinct e -> Forall distinct (history cs e).
Proof.
  induction cs as [|c cs IH]; intros e H; simpl; constructor.
  - now apply perform_distinct.
  - apply IH. now apply perform_distinct.
Qed.

Lemma allPositive_held e w m : allPositive e -> 0 <= held e w m.
Proof.
  intros H. unfold held, position.
  destruct (TradingEngine.portfolios e !! w) as [p|] eqn:Hp; [|apply Qle_refl].
  destruct (find _ (UserPortfolio.assets p)) as [a|] eqn:Hf; [|apply Qle_refl].
  apply find_some in Hf as [Hin _].
  apply Qlt_le_weak.
  exact (proj1 (List.Forall_forall _ _) (H w p Hp) a Hin).
Qed.

Lemma allPositive_no_portfolio key orders marketData :
  allPositive (TradingEngine.mk key orders ∅ marketData).
Proof. intros w p Hl. simpl in Hl. now rewrite lookup_empty in Hl. Qed.

Lemma distinct_no_portfolio key orders marketData :
  distinct (TradingEngine.mk key orders ∅ marketData).
Proof. intros w p Hl. simpl in Hl. now rewrite lookup_empty in Hl. Qed.

Lemma held_entry e w m : held e w m = PortfolioAsset.quantity (entry e w m).
Proof. unfold held, entry. now destruct (position e w m). Qed.

Lemma heldAt_entry e w m : heldAt e w m = PortfolioAsset.averagePrice (entry e w m).
Proof. unfold heldAt, entry. now destruct (position e w m). Qed.

(** ** Position store *)

(** C4. Whatever sequence of fills and of buy and sell calls is run on
    an engine that starts without portfolios, after each step the
    quantity of every account in every asset is at least 0, and every
    entry that a portfolio stores has a positive quantity. *)
Theorem quantity_never_negative
    (key : option PublicKey) (orders : gmap string TradingOrder.t)
    (marketData : gmap string MarketData.t) (cs : list Call) (w m : string) :
  Forall (fun e => 0 <= held e w m /\ allPositive e)
    (history cs (TradingEngine.mk key orders ∅ marketData)).
Proof.
  eapply Forall_impl.
  - apply history_allPositive, allPositive_no_portfolio.
  - intros e He. split; [now apply allPositive_held|exact He].
Qed.

(** A fill of positive quantity on an engine whose entries are positive
    leaves a positive quantity. *)
Lemma positive_fill_applies e w m q :
  allPositive e -> 0 < q -> 0 < held e w m + q.
Proof.
  intros He Hq. apply Qlt_le_trans with (0 + q).
  - now rewrite Qplus_0_l.
  - apply Qplus_le_l. now apply allPositive_held.
Qed.

(** C5. A buy fill of [q] at [price] on a position of quantity [oldQty]
    and average cost [oldAvg] (both 0 when the account has no entry for
    the asset) leaves an entry of quantity [oldQty + q] whose average
    cost is [(oldQty * oldAvg + q * price) / (oldQty + q)]; the new
    quantity is positive for every fill of positive quantity on a stored
    position. *)
Theorem buy_fill_weighted_average (e : TradingEngine.t) (w m : string)
    (q price : Q) :
  let oldQty := held e w m in
  let oldAvg := heldAt e w m in
  0 < oldQty + q ->
  exists a,
    position (after (TradingEngine.updateUserPortfolio w m q price buy) e) w m
    = Some a
    /\ PortfolioAsset.quantity a = oldQty + q
    /\ PortfolioAsset.averagePrice a
       = (oldQty * oldAvg + q * price) / (oldQty + q).
Proof.
  intros oldQty oldAvg Hpos. subst oldQty oldAvg.
  rewrite held_entry, heldAt_entry in *.
  exists (traded e m buy q price (entry e w m)). split; [|split].
  - apply position_kept. unfold keeps. rewrite traded_quantity.
    now apply gtb_gt.
  - now rewrite traded_quantity.
  - now rewrite traded_averagePrice.
Qed.

Lemma buy_fill_weighted_average_witness :
  exists a,
    position
      (after (TradingEngine.updateUserPortfolio "alice" rolex1 300 172 buy) engineA)
      "alice" rolex1 = Some a
    /\ PortfolioAsset.quantity a = held engineA "alice" rolex1 + 300
    /\ PortfolioAsset.averagePrice a
       = (held engineA "alice" rolex1 * heldAt engineA "alice" rolex1 + 300 * 172)
         / (held engineA "alice" rolex1 + 300).
Proof.
  apply (buy_fill_weighted_average engineA "alice" rolex1 300 172).
  vm_compute. reflexivity.
Defined.

Lemma sell_quantity_kept (a : PortfolioAsset.t) (q price : Q) :
  0 < PortfolioAsset.quantity a - q ->
  PortfolioAsset.quantity (TradingEngine.applySide sell q price a)
  = PortfolioAsset.quantity a - q.
Proof.
  intros H. simpl.
  destruct (ltb (PortfolioAsset.quantity a - q) 0) eqn:Hl; [|reflexivity].
  apply ltb_lt in Hl. exfalso. exact (Qlt_irrefl _ (Qlt_trans _ _ _ H Hl)).
Qed.

Lemma sell_quantity_clamped (a : PortfolioAsset.t) (q price : Q) :
  PortfolioAsset.quantity a - q <= 0 ->
  PortfolioAsset.quantity (TradingEngine.applySide sell q price a) <= 0.
Proof.
  intros H. simpl.
  destruct (ltb (PortfolioAsset.quantity a - q) 0); [apply Qle_refl|exact H].
Qed.

(** C8. A sell fill on a stored position keeps its average cost when the
    quantity left is positive; when nothing is left the entry is gone,
    and with it any average cost of the position. *)
Theorem sell_fill_average_cost (e : TradingEngine.t) (w m : string)
    (q price : Q) (a : PortfolioAsset.t) :
  distinct e ->
  position e w m = Some a ->
  let e' := after (TradingEngine.updateUserPortfolio w m q price sell) e in
  (0 < PortfolioAsset.quantity a - q ->
   exists a',
     position e' w m = Some a'
     /\ PortfolioAsset.quantity a' = PortfolioAsset.quantity a - q
     /\ PortfolioAsset.averagePrice a' = PortfolioAsset.averagePrice a)
  /\ (PortfolioAsset.quantity a - q <= 0 -> position e' w m = None).
Proof.
  intros Hd Hp e'. subst e'.
  assert (He : entry e w m = a) by (unfold entry; now rewrite Hp).
  split.
  - intros Hq. exists (traded e m sell q price a). split; [|split].
    + rewrite <- He. apply position_kept. rewrite He.
      unfold keeps. rewrite traded_quantity, sell_quantity_kept by assumption.
      now apply gtb_gt.
    + rewrite traded_quantity. now apply sell_quantity_kept.
    + now rewrite traded_averagePrice.
  - intros Hq. apply position_dropped; [assumption|]. rewrite He.
    unfold keeps. rewrite traded_quantity. apply gtb_le.
    now apply sell_quantity_clamped.
Qed.

Lemma engineA_distinct : distinct engineA.
Proof. apply (bool_decide_unpack _). vm_compute. exact I. Defined.

Lemma sell_fill_average_cost_witness :
  let a := entry engineA "alice" rolex1 in
  (exists a',
     position
       (after (TradingEngine.updateUserPortfolio "alice" rolex1 40 185 sell) engineA)
       "alice" rolex1 = Some a'
     /\ PortfolioAsset.quantity a' = PortfolioAsset.quantity a - 40
     /\ PortfolioAsset.averagePrice a' = PortfolioAsset.averagePrice a)
  /\ position
       (after (TradingEngine.updateUserPortfolio "alice" rolex1 100 185 sell) engineA)
       "alice" rolex1 = None.
Proof.
  intros a. split.
  - apply (sell_fill_average_cost engineA "alice" rolex1 40 185 a).
    + exact engineA_distinct.
    + vm_compute. reflexivity.
    + vm_compute. reflexivity.
  - apply (sell_fill_average_cost engineA "alice" rolex1 100 185 a).
    + exact engineA_distinct.
    + vm_compute. reflexivity.
    + vm_compute. discriminate.
Defined.

(** C10. After a portfolio update for a buy or a sell, every entry of
    the stored portfolio has a positive quantity; an entry whose quantity
    is brought to 0 (or below) is taken out of the array, so that the
    position is read as absent afterwards. *)
Theorem no_empty_entry_stored (e : TradingEngine.t) (w m : string)
    (q price : Q) (side : TradeSide) :
  let e' := after (TradingEngine.updateUserPortfolio w m q price side) e in
  (exists p,
     TradingEngine.portfolios e' !! w = Some p
     /\ Forall positive (UserPortfolio.assets p))
  /\ (distinct e ->
      PortfolioAsset.quantity (TradingEngine.applySide side q price (entry e w m)) <= 0 ->
      position e' w m = None).
Proof.
  intros e'. subst e'. split.
  - destruct (updateUserPortfolio_stores e w m q price side) as (p & Hp & Ha).
    exists p. split.
    + rewrite Hp. apply lookup_insert_eq.
    + rewrite Ha. apply filter_keeps_positive.
  - intros Hd Hq. apply position_dropped; [assumption|].
    unfold keeps. rewrite traded_quantity. now apply gtb_le.
Qed.

Lemma no_empty_entry_stored_witness :
  let e' :=
    after (TradingEngine.updateUserPortfolio "alice" rolex1 100 185 sell) engineA in
  (exists p,
     TradingEngine.portfolios e' !! "alice" = Some p
     /\ Forall positive (UserPortfolio.assets p))
  /\ position e' "alice" rolex1 = None.
Proof.
  intros e'. subst e'.
  destruct (no_empty_entry_stored engineA "alice" rolex1 100 185 sell) as [H1 H2].
  split; [exact H1|]. apply H2.
  - exact engineA_distinct.
  - vm_compute. discriminate.
Defined.

(** ** Orders *)

Lemma cancelOrder_run orderId w e :
  TradingEngine.cancelOrder orderId w e
  = match TradingEngine.orders e !! orderId with
    | None => (Returned false, e)
    | Some order =>
        if negb (String.eqb (TradingOrder.userId order) w)
        then (Thrown (CollectFiError "UNAUTHORIZED"), e)
        else if negb (OrderStatus.eqb (TradingOrder.status order) OrderStatus.PENDING)
        then (Thrown (CollectFiError "ORDER_NOT_CANCELLABLE"), e)
        else
          (Returned true,
           TradingEngine.set_orders
             (<[orderId := TradingEngine.setStatus OrderStatus.CANCELLED order]>
                (TradingEngine.orders e)) e)
    end.
Proof.
  unfold TradingEngine.cancelOrder. unfold bind at 1. unfold get at 1.
  destruct (TradingEngine.orders e !! orderId) as [order|]; [|reflexivity].
  destruct (negb (String.eqb _ w)); [reflexivity|].
  destruct (negb (OrderStatus.eqb _ _)); reflexivity.
Qed.

Lemma status_not_pending (s : OrderStatus.t) :
  s <> OrderStatus.PENDING ->
  negb (OrderStatus.eqb s OrderStatus.PENDING) = true.
Proof. destruct s; intros H; try reflexivity. now contradiction H. Qed.

(** The order that alice cancelled is not pending any more; bob asks to
    cancel it and is told [UNAUTHORIZED], not [ORDER_NOT_CANCELLABLE]:
    the owner is tested before the status. *)
Lemma cancel_by_other_account_unauthorized :
  ~ cancel_of_terminal_not_cancellable "order_2_k3x9" "bob" engineB.
Proof.
  intros H. specialize (H orderB).
  vm_compute in H. specialize (H eq_refl).
  assert (Hs : OrderStatus.CANCELLED <> OrderStatus.PENDING) by discriminate.
  specialize (H Hs). discriminate H.
Qed.

(** C7, as the code has it. A cancel request for an order that is no
    longer pending (executed, cancelled or failed) changes nothing in
    the engine, the order included, and throws: [ORDER_NOT_CANCELLABLE]
    when it comes from the owner of the order, which is the case of a
    repeated cancel, and [UNAUTHORIZED], checked first, when it comes
    from anyone else. *)
Theorem cancel_terminal_order (e : TradingEngine.t) (orderId : string)
    (order : TradingOrder.t) (w : PublicKey) :
  TradingEngine.orders e !! orderId = Some order ->
  TradingOrder.status order <> OrderStatus.PENDING ->
  after (TradingEngine.cancelOrder orderId w) e = e
  /\ (TradingOrder.userId order = w ->
      result (TradingEngine.cancelOrder orderId w) e
      = Thrown (CollectFiError "ORDER_NOT_CANCELLABLE"))
  /\ (TradingOrder.userId order <> w ->
      result (TradingEngine.cancelOrder orderId w) e
      = Thrown (CollectFiError "UNAUTHORIZED")).
Proof.
  intros Ho Hs. unfold after, result. rewrite cancelOrder_run, Ho.
  rewrite (status_not_pending _ Hs).
  destruct (String.eqb (TradingOrder.userId order) w) eqn:Hw; simpl.
  - apply String.eqb_eq in Hw. repeat split; congruence.
  - apply String.eqb_neq in Hw. repeat split; congruence.
Qed.

(** C9. Cancelling an order id that is not in the order map returns
    [false], throws nothing and changes nothing, whereas a stored order
    makes the call throw [UNAUTHORIZED] for another account and
    [ORDER_NOT_CANCELLABLE] for its owner when it is not pending. *)
Theorem cancel_unknown_order (e : TradingEngine.t) (orderId : string)
    (w : PublicKey) :
  (TradingEngine.orders e !! orderId = None ->
   TradingEngine.cancelOrder orderId w e = (Returned false, e))
  /\ (forall order,
        TradingEngine.orders e !! orderId = Some order ->
        TradingOrder.userId order <> w ->
        TradingEngine.cancelOrder orderId w e
        = (Thrown (CollectFiError "UNAUTHORIZED"), e))
  /\ (forall order,
        TradingEngine.orders e !! orderId = Some order ->
        TradingOrder.userId order = w ->
        TradingOrder.status order <> OrderStatus.PENDING ->
        TradingEngine.cancelOrder orderId w e
        = (Thrown (CollectFiError "ORDER_NOT_CANCELLABLE"), e)).
Proof.
  rewrite cancelOrder_run. repeat split.
  - now intros ->.
  - intros order -> Hw. apply String.eqb_neq in Hw. now rewrite Hw.
  - intros order -> <- Hs. rewrite String.eqb_refl. simpl.
    now rewrite status_not_pending.
Qed.

Lemma cancel_terminal_order_witness :
  after (TradingEngine.cancelOrder "order_2_k3x9" "alice") engineB = engineB
  /\ result (TradingEngine.cancelOrder "order_2_k3x9" "alice") engineB
     = Thrown (CollectFiError "ORDER_NOT_CANCELLABLE").
Proof.
  destruct (cancel_terminal_order engineB "order_2_k3x9" orderB "alice")
    as (Hsame & Howner & _).
  - vm_compute. reflexivity.
  - simpl. discriminate.
  - split; [exact Hsame|]. apply Howner. reflexivity.
Defined.

Lemma cancel_unknown_order_witness :
  TradingEngine.cancelOrder "order_7_none" "alice" engineB
  = (Returned false, engineB).
Proof.
  apply (proj1 (cancel_unknown_order engineB "order_7_none" "alice")).
  vm_compute. reflexivity.
Defined.

(** ** Market orders *)

Lemma market_buy_on_empty_book_fills :
  TradingEngine.orders engine0 = ∅
  /\ ~ market_buy_fails_without_liquidity 1 rolex1 100000 "alice" engine0.
Proof.
  split; [reflexivity|]. intros H.
  destruct H as [x Hx]; [vm_compute; reflexivity|].
  vm_compute in Hx. discriminate Hx.
Qed.

Lemma settled_orders now w m q price side e :
  TradingEngine.orders (settled now w m q price side e) = TradingEngine.orders e.
Proof.
  unfold settled.
  destruct (updateUserPortfolio_frame
              (after (TradingEngine.updateMarketDataAfterTrade now m q side price) e)
              w m q price side) as (-> & _).
  unfold after, TradingEngine.updateMarketDataAfterTrade, bind, get, modify, ret.
  destruct (TradingEngine.marketData e !! m); reflexivity.
Qed.

Lemma position_market now m q side price e w :
  position (after (TradingEngine.updateMarketDataAfterTrade now m q side price) e) w m
  = position e w m.
Proof. unfold position. now rewrite updateMarketDataAfterTrade_portfolios. Qed.

Lemma settled_buy_held now w m q price e :
  0 < held e w m + q ->
  held (settled now w m q price buy e) w m = held e w m + q.
Proof.
  intros Hq. unfold settled.
  set (e1 := after (TradingEngine.updateMarketDataAfterTrade now m q buy price) e).
  assert (He : entry e1 w m = entry e w m)
    by (unfold entry, e1; now rewrite position_market).
  rewrite held_entry in Hq. unfold held at 1.
  rewrite position_kept.
  - now rewrite traded_quantity, He, held_entry.
  - unfold keeps. rewrite traded_quantity, He. now apply gtb_gt.
Qed.

Lemma settled_sell_held now w m q price e :
  0 < held e w m - q ->
  held (settled now w m q price sell e) w m = held e w m - q.
Proof.
  intros Hq. unfold settled.
  set (e1 := after (TradingEngine.updateMarketDataAfterTrade now m q sell price) e).
  assert (He : entry e1 w m = entry e w m)
    by (unfold entry, e1; now rewrite position_market).
  rewrite held_entry in Hq. unfold held at 1.
  rewrite position_kept.
  - rewrite traded_quantity, He, held_entry. now apply sell_quantity_kept.
  - unfold keeps. rewrite traded_quantity, He, sell_quantity_kept by assumption.
    now apply gtb_gt.
Qed.

(** C3, as the code has it. There is no order book to run out of: a
    market buy of an asset with market data, within the price limit and
    with a well-formed program id, returns its transaction and commits
    the whole quantity at the current price whatever the order map
    holds, and a market sell does so whenever the seller holds the
    quantity; neither touches the order map. *)
Theorem market_order_fills_in_full (e : TradingEngine.t) (now : Z)
    (m : string) (q : Q) (w : PublicKey) (limit : option Q)
    (md : MarketData.t) (k : PublicKey) :
  TradingEngine.marketData e !! m = Some md ->
  TradingEngine.programKey e = Some k ->
  let price := MarketData.currentPrice md in
  let tx := [TransactionInstruction.mk [] k []] in
  (truthy limit && gtb price (default 0 limit) = false ->
   let e' := settled now w m q price buy e in
   TradingEngine.buyTokens now m q w limit e = (Returned tx, e')
   /\ TradingEngine.orders e' = TradingEngine.orders e
   /\ (0 < held e w m + q -> held e' w m = held e w m + q))
  /\ (truthy limit && ltb price (default 0 limit) = false ->
      forall a, position e w m = Some a ->
      q <= PortfolioAsset.quantity a ->
      let e' := settled now w m q price sell e in
      TradingEngine.sellTokens now m q w limit e = (Returned tx, e')
      /\ TradingEngine.orders e' = TradingEngine.orders e
      /\ (0 < held e w m - q -> held e' w m = held e w m - q)).
Proof.
  intros Hmd Hk price tx. split.
  - intros Hl e'. split; [|split].
    + rewrite buyTokens_run, Hmd. cbv zeta. fold price. now rewrite Hl, Hk.
    + apply settled_orders.
    + apply settled_buy_held.
  - intros Hl a Ha Hq e'. split; [|split].
    + rewrite sellTokens_run, Hmd. cbv zeta. fold price. rewrite Hl, Ha, Hk.
      apply ltb_ge in Hq. now rewrite Hq.
    + apply settled_orders.
    + apply settled_sell_held.
Qed.

Lemma market_order_fills_in_full_witness :
  TradingEngine.orders engine0 = ∅
  /\ result (TradingEngine.buyTokens 1 rolex1 100000 "alice" None) engine0
     = Returned [TransactionInstruction.mk [] "11111111111111111111111111111111" []]
  /\ held (after (TradingEngine.buyTokens 1 rolex1 100000 "alice" None) engine0)
       "alice" rolex1 = held engine0 "alice" rolex1 + 100000.
Proof.
  destruct (market_order_fills_in_full engine0 1 rolex1 100000 "alice" None
              (MarketData.mk rolex1 180 5.2 3.6 2800 18000000 100000 100000 185 175 0)
              "11111111111111111111111111111111")
    as [Hbuy _].
  - vm_compute. reflexivity.
  - reflexivity.
  - destruct Hbuy as (Hrun & _ & Hheld); [reflexivity|].
    unfold result, after. rewrite Hrun. simpl.
    split; [reflexivity|]. split; [reflexivity|].
    apply Hheld. vm_compute. reflexivity.
Defined.

(** ** Redemption gate *)

Lemma redemption_above_supply :
  ~ redeems_iff_whole_supply 2 "redemption_2_ab12" rolex1 home platform1.
Proof.
  intros [Hsucc _].
  assert (H : holding platform1 rolex1 == supply platform1 rolex1).
  { apply Hsucc. eexists. vm_compute. reflexivity. }
  vm_compute in H. discriminate H.
Qed.

Lemma requestRedemption_run now requestId m addr p :
  CollectFi.requestRedemption now requestId m addr p
  = if negb (Wallet.isConnected (CollectFi.wallet p))
    then (Thrown (CollectFiError "WALLET_NOT_CONNECTED"), p)
    else
      match position (CollectFi.tradingEngine p) (CollectFi.theKey p) m with
      | None => (Thrown (CollectFiError "INSUFFICIENT_TOKENS_FOR_REDEMPTION"), p)
      | Some a =>
          if ltb (PortfolioAsset.quantity a) 100000
          then (Thrown (CollectFiError "INSUFFICIENT_TOKENS_FOR_REDEMPTION"), p)
          else
            (Returned requestId,
             withRequest requestId
               (pendingRequest now requestId m (CollectFi.theKey p) addr) p)
      end.
Proof.
  unfold CollectFi.requestRedemption. unfold bind at 1. unfold get at 1.
  destruct (negb (Wallet.isConnected (CollectFi.wallet p))); [reflexivity|].
  unfold bind at 1.
  unfold CollectFi.getUserPortfolio, CollectFi.onTradingEngine,
    TradingEngine.getUserPortfolio.
  unfold bind at 1. unfold get at 1. unfold ret at 1.
  unfold position. destruct p as [am te vm wl]. simpl.
  destruct (TradingEngine.portfolios te !! _) as [pf|]; [|reflexivity].
  destruct (find _ (UserPortfolio.assets pf)) as [a|]; [|reflexivity].
  destruct (ltb (PortfolioAsset.quantity a) 100000); reflexivity.
Qed.

(** C1, as the code has it. With a connected wallet, [requestRedemption]
    succeeds exactly when the account holds at least 100000 tokens of
    the asset, the count that the code assumes for every asset: it then
    stores a new request in status pending; below 100000, even by one
    token, it throws [INSUFFICIENT_TOKENS_FOR_REDEMPTION] and the
    platform, its requests included, is as before. *)
Theorem redemption_gate (p : CollectFi.t) (now : Z) (requestId m : string)
    (shippingAddress : ShippingAddress.t) :
  Wallet.isConnected (CollectFi.wallet p) = true ->
  let call := CollectFi.requestRedemption now requestId m shippingAddress in
  (100000 <= holding p m ->
   call p
   = (Returned requestId,
      withRequest requestId
        (pendingRequest now requestId m (CollectFi.theKey p) shippingAddress) p))
  /\ (holding p m < 100000 ->
      call p = (Thrown (CollectFiError "INSUFFICIENT_TOKENS_FOR_REDEMPTION"), p)).
Proof.
  intros Hc call. subst call. rewrite requestRedemption_run, Hc. simpl.
  unfold holding, held.
  destruct (position _ _ m) as [a|]; split; intros Hq.
  - apply ltb_ge in Hq. now rewrite Hq.
  - apply ltb_lt in Hq. now rewrite Hq.
  - exfalso. revert Hq. vm_compute. intros H. now apply H.
  - reflexivity.
Qed.

Lemma redemption_gate_witness :
  CollectFi.requestRedemption 2 "redemption_2_ab12" rolex1 home platform1
  = (Returned "redemption_2_ab12",
     withRequest "redemption_2_ab12"
       (pendingRequest 2 "redemption_2_ab12" rolex1 "alice" home) platform1)
  /\ CollectFi.requestRedemption 2 "redemption_2_ab12" rolex1 home
       (after (CollectFi.buyTokens 1 rolex1 99999 None) platform0)
     = (Thrown (CollectFiError "INSUFFICIENT_TOKENS_FOR_REDEMPTION"),
        after (CollectFi.buyTokens 1 rolex1 99999 None) platform0).
Proof.
  split.
  - apply (redemption_gate platform1 2 "redemption_2_ab12" rolex1 home).
    + reflexivity.
    + vm_compute. discriminate.
  - apply (redemption_gate (after (CollectFi.buyTokens 1 rolex1 99999 None) platform0)
             2 "redemption_2_ab12" rolex1 home).
    + reflexivity.
    + vm_compute. reflexivity.
Defined.

(** ** Redemption status *)

Lemma updateRedemptionStatus_run now requestId status tracking v :
  VaultManager.updateRedemptionStatus now requestId status tracking v
  = match VaultManager.redemptionRequests v !! requestId with
    | None => (Returned false, v)
    | Some request =>
        (Returned true,
         VaultManager.mk
           (<[requestId := VaultManager.restamp now status tracking request]>
              (VaultManager.redemptionRequests v)))
    end.
Proof.
  unfold VaultManager.updateRedemptionStatus. unfold bind at 1. unfold get at 1.
  destruct (VaultManager.redemptionRequests v !! requestId); reflexivity.
Qed.

Lemma statusOf_updated now requestId status tracking v s :
  statusOf requestId v = Some s ->
  statusOf requestId
    (after (VaultManager.updateRedemptionStatus now requestId status tracking) v)
  = Some status.
Proof.
  unfold statusOf, after. rewrite updateRedemptionStatus_run.
  destruct (VaultManager.redemptionRequests v !! requestId); [|discriminate].
  intros _. simpl. now rewrite lookup_insert_eq.
Qed.

Lemma status_eqb_eq (a b : RedemptionStatus.t) :
  RedemptionStatus.eqb a b = true <-> a = b.
Proof. destruct a, b; simpl; split; (reflexivity || discriminate). Qed.

Lemma updateRedemptionStatus_returns now requestId status tracking v r :
  VaultManager.redemptionRequests v !! requestId = Some r ->
  VaultManager.updateRedemptionStatus now requestId status tracking v
  = (Returned true,
     after (VaultManager.updateRedemptionStatus now requestId status tracking) v).
Proof.
  intros Hr. unfold after. now rewrite updateRedemptionStatus_run, Hr.
Qed.

Lemma guarded_run now requestId g v :
  guarded now requestId g v
  = match VaultManager.redemptionRequests v !! requestId with
    | None => (Returned false, v)
    | Some r =>
        match guard g r with
        | Some x => (Thrown x, v)
        | None =>
            (Returned true,
             after (VaultManager.updateRedemptionStatus now requestId
                      (fst (target g)) (snd (target g))) v)
        end
    end.
Proof.
  destruct g as [|t| |u]; unfold guarded, guard, target, fst, snd;
    [unfold VaultManager.processRedemption
    |unfold VaultManager.shipRedemption
    |unfold VaultManager.markRedemptionDelivered
    |unfold VaultManager.cancelRedemption];
    unfold bind at 1; unfold get at 1;
    (destruct (VaultManager.redemptionRequests v !! requestId) as [r|] eqn:Hr;
       [|reflexivity]);
    try (destruct (negb (String.eqb _ u)); [reflexivity|]);
    (destruct (negb (RedemptionStatus.eqb _ _)); [reflexivity|]);
    unfold bind at 1;
    now rewrite (updateRedemptionStatus_returns _ _ _ _ _ _ Hr).
Qed.

Lemma guard_advances g r :
  guard g r = None -> advances (RedemptionRequest.status r) (fst (target g)).
Proof.
  destruct g as [|t| |u]; unfold guard, target, fst;
    try (destruct (negb (String.eqb _ u)); [discriminate|]);
    destruct (RedemptionStatus.eqb _ _) eqn:He; try discriminate;
    intros _; apply status_eqb_eq in He; rewrite He; constructor.
Qed.

(** The guarded methods follow the state machine: a call either throws
    or finds no request, and then changes nothing, or moves the status
    along one of its transitions. *)
Lemma guarded_follows_machine now requestId g v s :
  statusOf requestId v = Some s ->
  after (guarded now requestId g) v = v
  \/ exists s', statusOf requestId (after (guarded now requestId g) v) = Some s'
                /\ advances s s'.
Proof.
  intros Hs. unfold after at 1 2. rewrite guarded_run.
  pose proof Hs as Hs0. unfold statusOf in Hs.
  destruct (VaultManager.redemptionRequests v !! requestId) as [r|] eqn:Hr;
    [|discriminate].
  injection Hs as <-.
  destruct (guard g r) eqn:Hg; [now left|]. right.
  exists (fst (target g)). split.
  - simpl. eapply statusOf_updated; eauto.
  - now apply guard_advances.
Qed.

(** [updateRedemptionStatus] checks nothing: called on a stored request
    it returns [true] and the request takes the status asked, whatever
    its status was. *)
Lemma update_sets_any_status now requestId status tracking v s :
  statusOf requestId v = Some s ->
  result (VaultManager.updateRedemptionStatus now requestId status tracking) v
  = Returned true
  /\ statusOf requestId
       (after (VaultManager.updateRedemptionStatus now requestId status tracking) v)
     = Some status.
Proof.
  intros Hs. split; [|eapply statusOf_updated; eauto].
  unfold statusOf in Hs. unfold result.
  destruct (VaultManager.redemptionRequests v !! requestId) as [r|] eqn:Hr;
    [|discriminate].
  now rewrite (updateRedemptionStatus_returns _ _ _ _ _ _ Hr).
Qed.

Lemma delivered_is_last s : ~ advances RedemptionStatus.DELIVERED s.
Proof. intros H. inversion H. Qed.

Lemma processing_only_ships s :
  advances RedemptionStatus.PROCESSING s -> s = RedemptionStatus.SHIPPED.
Proof. intros H. now inversion H. Qed.

(** C2. [updateRedemptionStatus], called on the vault manager itself,
    breaks the state machine that the guarded methods enforce.  A new
    vault manager takes a request to [delivered], and another to
    [processing], through [requestRedemption], [processRedemption],
    [shipRedemption] and [markRedemptionDelivered].  On the delivered
    request [updateRedemptionStatus] with [processing], and on the one in
    processing [updateRedemptionStatus] with [cancelled], return [true]
    and set the status asked, though neither is a transition of the
    machine; the guarded methods [processRedemption] and
    [cancelRedemption] throw on the same two requests and change
    nothing. *)
Theorem status_update_skips_guards :
  (statusOf redemptionId vaultDelivered = Some RedemptionStatus.DELIVERED
   /\ ~ advances RedemptionStatus.DELIVERED RedemptionStatus.PROCESSING
   /\ VaultManager.processRedemption 9 redemptionId vaultDelivered
      = (Thrown (CollectFiError "INVALID_REDEMPTION_STATUS"), vaultDelivered)
   /\ result (VaultManager.updateRedemptionStatus 9 redemptionId
                RedemptionStatus.PROCESSING None) vaultDelivered
      = Returned true
   /\ statusOf redemptionId
        (after (VaultManager.updateRedemptionStatus 9 redemptionId
                  RedemptionStatus.PROCESSING None) vaultDelivered)
      = Some RedemptionStatus.PROCESSING)
  /\ (statusOf redemptionId vaultProcessing = Some RedemptionStatus.PROCESSING
      /\ ~ advances RedemptionStatus.PROCESSING RedemptionStatus.CANCELLED
      /\ VaultManager.cancelRedemption 9 redemptionId "alice" vaultProcessing
         = (Thrown (CollectFiError "REDEMPTION_NOT_CANCELLABLE"), vaultProcessing)
      /\ result (VaultManager.updateRedemptionStatus 9 redemptionId
                   RedemptionStatus.CANCELLED None) vaultProcessing
         = Returned true
      /\ statusOf redemptionId
           (after (VaultManager.updateRedemptionStatus 9 redemptionId
                     RedemptionStatus.CANCELLED None) vaultProcessing)
         = Some RedemptionStatus.CANCELLED).
Proof.
  assert (Hd : statusOf redemptionId vaultDelivered
               = Some RedemptionStatus.DELIVERED) by (vm_compute; reflexivity).
  assert (Hp : statusOf redemptionId vaultProcessing
               = Some RedemptionStatus.PROCESSING) by (vm_compute; reflexivity).
  split.
  - split; [exact Hd|]. split; [apply delivered_is_last|].
    split; [vm_compute; reflexivity|].
    exact (update_sets_any_status 9 redemptionId RedemptionStatus.PROCESSING
             None vaultDelivered _ Hd).
  - split; [exact Hp|]. split.
    { intros H. apply processing_only_ships in H. discriminate H. }
    split; [vm_compute; reflexivity|].
    exact (update_sets_any_status 9 redemptionId RedemptionStatus.CANCELLED
             None vaultProcessing _ Hp).
Qed.

(** ** Market capitalisation *)

Lemma cap_uses_total_supply :
  ~ cap_is_price_times_circulating 2 "CHARIZARDmint1" 2 managerC.
Proof.
  intros H.
  specialize (H (CollectibleAsset.mk "charizard-1st-edition-1700000000000"
                   "Charizard 1st Edition" "PSA 10 holographic card"
                   "trading_cards" "CHARIZARDmint1" 100000 60000 3 0 1 1)
                (PricePoint.mk 2 2 0 (2 * 100000))).
  vm_compute in H. specialize (H eq_refl eq_refl). discriminate H.
Qed.

Lemma last_lastThousand {A} (l : list A) (x : A) :
  last (AssetManager.lastThousand (l ++ [x])) = Some x.
Proof.
  unfold AssetManager.lastThousand.
  rewrite drop_app_le by (rewrite length_app; simpl; lia).
  apply last_snoc.
Qed.

Lemma tradeOnMarket_cap now q price md :
  MarketData.marketCap (TradingEngine.tradeOnMarket now q price md)
  = price * MarketData.totalSupply md.
Proof. reflexivity. Qed.

(** C6, as the code has it. After a trade at a price the market
    capitalisation of the asset is that price times its total supply,
    in the market data of the engine and in the point that the asset
    manager appends to the price history; the circulating supply is not
    read, and both supplies are left as they were. *)
Theorem cap_is_price_times_total_supply :
  (forall (e : TradingEngine.t) (now : Z) (m : string) (q price : Q)
          (side : TradeSide) (md : MarketData.t),
      TradingEngine.marketData e !! m = Some md ->
      exists md',
        TradingEngine.marketData
          (after (TradingEngine.updateMarketDataAfterTrade now m q side price) e)
        !! m = Some md'
        /\ MarketData.marketCap md' = price * MarketData.totalSupply md
        /\ MarketData.totalSupply md' = MarketData.totalSupply md
        /\ MarketData.circulatingSupply md' = MarketData.circulatingSupply md)
  /\ (forall (a : AssetManager.t) (now : Z) (key : string) (price : Q)
             (asset : CollectibleAsset.t) (points : list PricePoint.t),
        AssetManager.getAsset key a = Some asset ->
        AssetManager.arrays a !! CollectibleAsset.priceHistory asset = Some points ->
        latestPoint key (after (AssetManager.updateAssetPrice now key price) a)
        = Some (PricePoint.mk now price 0
                  (price * CollectibleAsset.totalSupply asset))).
Proof.
  split.
  - intros e now m q price side md Hmd.
    exists (TradingEngine.tradeOnMarket now q price md).
    unfold after, TradingEngine.updateMarketDataAfterTrade, bind, get, modify.
    rewrite Hmd. simpl. rewrite lookup_insert_eq. repeat split.
  - intros a now key price asset points Hasset Hpoints.
    unfold AssetManager.getAsset in Hasset.
    destruct (AssetManager.assets a !! key) as [o|] eqn:Ho; [|discriminate].
    unfold latestPoint, AssetManager.historyOf, AssetManager.getAsset, after,
      AssetManager.updateAssetPrice, bind, get, modify.
    rewrite Ho, Hasset, Hpoints. cbv zeta. simpl fst. simpl snd.
    cbn [AssetManager.assets AssetManager.objects AssetManager.arrays].
    rewrite Ho.
    rewrite list_lookup_insert_eq by (eapply lookup_lt_Some; eassumption).
    cbn [CollectibleAsset.priceHistory default].
    pose proof (lookup_lt_Some _ _ _ Hpoints) as Hlt.
    destruct (1000 <? length (points ++ [_]))%nat.
    + rewrite lookup_app_r by (rewrite length_insert; lia).
      rewrite length_insert, Nat.sub_diag. simpl lookup.
      apply last_lastThousand.
    + rewrite list_lookup_insert_eq by assumption.
      apply last_snoc.
Qed.

Lemma cap_is_price_times_total_supply_witness :
  latestPoint "CHARIZARDmint1"
    (after (AssetManager.updateAssetPrice 2 "CHARIZARDmint1" 2) managerC)
  = Some (PricePoint.mk 2 2 0 (2 * 100000)).
Proof.
  apply (proj2 cap_is_price_times_total_supply managerC 2%Z "CHARIZARDmint1" 2
           (CollectibleAsset.mk "charizard-1st-edition-1700000000000"
              "Charizard 1st Edition" "PSA 10 holographic card"
              "trading_cards" "CHARIZARDmint1" 100000 60000 3 0 1 1) []).
  - vm_compute. reflexivity.
  - vm_compute. reflexivity.
Defined.

(** * Further properties *)

(** ** Trades *)

(** X1. [buyTokens] and [sellTokens] check before they change anything:
    a call that throws leaves the engine exactly as it was. *)
Theorem trade_throws_unchanged (e : TradingEngine.t) (now : Z) (m : string)
    (q : Q) (w : PublicKey) (limit : option Q) (x : Exception) :
  (result (TradingEngine.buyTokens now m q w limit) e = Thrown x ->
   after (TradingEngine.buyTokens now m q w limit) e = e)
  /\ (result (TradingEngine.sellTokens now m q w limit) e = Thrown x ->
      after (TradingEngine.sellTokens now m q w limit) e = e).
Proof.
  unfold result, after. rewrite buyTokens_run, sellTokens_run. split.
  - destruct (TradingEngine.marketData e !! m); [|reflexivity]. cbv zeta.
    destruct (truthy limit && _); [reflexivity|].
    destruct (TradingEngine.programKey e); [discriminate|reflexivity].
  - destruct (TradingEngine.marketData e !! m); [|reflexivity]. cbv zeta.
    destruct (truthy limit && _); [reflexivity|].
    destruct (position e w m); [|reflexivity].
    destruct (ltb _ q); [reflexivity|].
    destruct (TradingEngine.programKey e); [discriminate|reflexivity].
Qed.

Lemma trade_throws_unchanged_witness :
  after (TradingEngine.buyTokens 3 rolex1 10 "alice" (Some 100)) engineA = engineA.
Proof.
  apply (proj1 (trade_throws_unchanged engineA 3 rolex1 10 "alice" (Some 100)
                  (CollectFiError "PRICE_EXCEEDED"))).
  vm_compute. reflexivity.
Defined.

Lemma serve_listing r e m : listing (serve r e) m = listing e m.
Proof.
  assert (Hsettled : forall now w m0 q side md,
             TradingEngine.marketData e !! m0 = Some md ->
             listing (settled now w m0 q (MarketData.currentPrice md) side e) m
             = listing e m).
  { intros now w m0 q side md Hmd. unfold listing, settled.
    destruct (updateUserPortfolio_frame
                (after (TradingEngine.updateMarketDataAfterTrade now m0 q side
                          (MarketData.currentPrice md)) e)
                w m0 q (MarketData.currentPrice md) side) as (_ & -> & _).
    unfold after, TradingEngine.updateMarketDataAfterTrade, bind, get, modify.
    rewrite Hmd. simpl. destruct (decide (m0 = m)) as [->|Hne].
    - now rewrite lookup_insert_eq, Hmd.
    - now rewrite lookup_insert_ne. }
  destruct r as [now m0 q w mx|now m0 q w mn|now oid m0 side q price w|oid w];
    simpl; unfold after.
  - rewrite buyTokens_run.
    destruct (TradingEngine.marketData e !! m0) eqn:Hmd; [|reflexivity]. cbv zeta.
    destruct (truthy mx && _); [reflexivity|].
    destruct (TradingEngine.programKey e); [|reflexivity]. now apply Hsettled.
  - rewrite sellTokens_run.
    destruct (TradingEngine.marketData e !! m0) eqn:Hmd; [|reflexivity]. cbv zeta.
    destruct (truthy mn && _); [reflexivity|].
    destruct (position e w m0); [|reflexivity].
    destruct (ltb _ q); [reflexivity|].
    destruct (TradingEngine.programKey e); [|reflexivity]. now apply Hsettled.
  - reflexivity.
  - rewrite cancelOrder_run.
    destruct (TradingEngine.orders e !! oid); [|reflexivity].
    destruct (negb (String.eqb _ w)); [reflexivity|].
    destruct (negb (OrderStatus.eqb _ _)); reflexivity.
Qed.

(** X2. Trading never moves a price: after any sequence of buys, sells,
    limit orders and cancellations every asset is listed at the price
    and with the supplies it had at the start, and no asset is added or
    dropped. *)
Theorem price_never_moves (rs : list Request) (e : TradingEngine.t) (m : string) :
  listing (session rs e) m = listing e m.
Proof.
  revert e. induction rs as [|r rs IH]; intros e; simpl; [reflexivity|].
  unfold session in IH. now rewrite IH, serve_listing.
Qed.

(** X3. After the market data of an asset were updated for a trade, the
    trade price lies between the day's low and high, the high has not
    come down nor the low gone up, and the volume has grown by quantity
    times price; it is never reduced nor reset. *)
Theorem trade_within_day_range (e : TradingEngine.t) (now : Z) (m : string)
    (q price : Q) (side : TradeSide) (md : MarketData.t) :
  TradingEngine.marketData e !! m = Some md ->
  exists md',
    TradingEngine.marketData
      (after (TradingEngine.updateMarketDataAfterTrade now m q side price) e) !! m
    = Some md'
    /\ MarketData.currentPrice md' = price
    /\ MarketData.low24h md' <= price <= MarketData.high24h md'
    /\ MarketData.high24h md <= MarketData.high24h md'
    /\ MarketData.low24h md' <= MarketData.low24h md
    /\ MarketData.volume24h md' = MarketData.volume24h md + q * price
    /\ MarketData.lastUpdated md' = now.
Proof.
  intros Hmd. exists (TradingEngine.tradeOnMarket now q price md).
  split.
  { unfold after, TradingEngine.updateMarketDataAfterTrade, bind, get, modify.
    rewrite Hmd. simpl. apply lookup_insert_eq. }
  simpl. unfold gtb.
  destruct (ltb (MarketData.high24h md) price) eqn:Hh;
    destruct (ltb price (MarketData.low24h md)) eqn:Hl;
    try apply ltb_lt in Hh; try apply ltb_ge in Hh;
    try apply ltb_lt in Hl; try apply ltb_ge in Hl;
    repeat split; auto using Qle_refl, Qlt_le_weak.
Qed.

Lemma trade_within_day_range_witness :
  exists md',
    TradingEngine.marketData
      (after (TradingEngine.updateMarketDataAfterTrade 4 rolex1 10 buy 190) engine0)
    !! rolex1 = Some md'
    /\ MarketData.currentPrice md' = 190
    /\ MarketData.low24h md' <= 190 <= MarketData.high24h md'
    /\ 185 <= MarketData.high24h md'
    /\ MarketData.low24h md' <= 175
    /\ MarketData.volume24h md' = 2800 + 10 * 190
    /\ MarketData.lastUpdated md' = 4%Z.
Proof.
  apply (trade_within_day_range engine0 4 rolex1 10 190 buy
           (MarketData.mk rolex1 180 5.2 3.6 2800 18000000 100000 100000 185 175 0)).
  vm_compute. reflexivity.
Defined.



Lemma settled_position_kept now w m q price side e :
  keeps (traded (after (TradingEngine.updateMarketDataAfterTrade now m q side price) e)
           m side q price (entry e w m)) = true ->
  position (settled now w m q price side e) w m
  = Some (traded (after (TradingEngine.updateMarketDataAfterTrade now m q side price) e)
            m side q price (entry e w m)).
Proof.
  intros Hk. unfold settled.
  set (e1 := after (TradingEngine.updateMarketDataAfterTrade now m q side price) e)
    in *.
  assert (He : entry e1 w m = entry e w m)
    by (unfold entry, e1; now rewrite position_market).
  rewrite <- He in *. now apply position_kept.
Qed.

Lemma settled_position_dropped now w m q price side e :
  distinct e ->
  keeps (traded (after (TradingEngine.updateMarketDataAfterTrade now m q side price) e)
           m side q price (entry e w m)) = false ->
  position (settled now w m q price side e) w m = None.
Proof.
  intros Hd Hk. unfold settled.
  set (e1 := after (TradingEngine.updateMarketDataAfterTrade now m q side price) e)
    in *.
  assert (He : entry e1 w m = entry e w m)
    by (unfold entry, e1; now rewrite position_market).
  rewrite <- He in *. apply position_dropped; [|assumption].
  intros w' p. unfold e1. rewrite updateMarketDataAfterTrade_portfolios. apply Hd.
Qed.

(** X5. On an engine whose program id is well formed, buying a positive
    quantity of a listed asset and selling the same quantity back both
    succeed, whatever the order map holds, and leave the account without
    any entry for the asset, as it was. *)
Theorem buy_then_sell_back (e : TradingEngine.t) (t1 t2 : Z) (m : string)
    (q : Q) (w k : PublicKey) (md : MarketData.t) :
  TradingEngine.marketData e !! m = Some md ->
  TradingEngine.programKey e = Some k ->
  distinct e ->
  position e w m = None ->
  0 < q ->
  let tx := [TransactionInstruction.mk [] k []] in
  let e1 := after (TradingEngine.buyTokens t1 m q w None) e in
  let e2 := after (TradingEngine.sellTokens t2 m q w None) e1 in
  result (TradingEngine.buyTokens t1 m q w None) e = Returned tx
  /\ held e1 w m = 0 + q
  /\ result (TradingEngine.sellTokens t2 m q w None) e1 = Returned tx
  /\ position e2 w m = None.
Proof.
  intros Hmd Hk Hd Hp Hq tx e1 e2.
  set (price := MarketData.currentPrice md).
  assert (He1 : TradingEngine.buyTokens t1 m q w None e
                = (Returned tx, settled t1 w m q price buy e)).
  { rewrite buyTokens_run, Hmd. cbv zeta. now rewrite Hk. }
  assert (Hent : entry e w m = TradingEngine.newAsset m)
    by (unfold entry; now rewrite Hp).
  assert (H0q : 0 < 0 + q) by now rewrite Qplus_0_l.
  assert (Hpos1 : position e1 w m
                  = Some (traded (after (TradingEngine.updateMarketDataAfterTrade
                                           t1 m q buy price) e)
                            m buy q price (TradingEngine.newAsset m))).
  { unfold e1, after. rewrite He1. simpl snd. rewrite <- Hent.
    apply settled_position_kept. unfold keeps.
    rewrite traded_quantity, Hent. simpl. now apply gtb_gt. }
  assert (Hlist : listing e1 m = listing e m)
    by apply (serve_listing (ReqBuy t1 m q w None)).
  unfold listing in Hlist. rewrite Hmd in Hlist.
  destruct (TradingEngine.marketData e1 !! m) as [md1|] eqn:Hmd1; [|discriminate].
  assert (Hprice1 : MarketData.currentPrice md1 = price)
    by (simpl in Hlist; injection Hlist as H1 _ _; exact H1).
  assert (Hk1 : TradingEngine.programKey e1 = Some k).
  { unfold e1, after. rewrite He1. simpl snd. unfold settled.
    destruct (updateUserPortfolio_frame
                (after (TradingEngine.updateMarketDataAfterTrade t1 m q buy price) e)
                w m q price buy) as (_ & _ & -> & _).
    unfold after, TradingEngine.updateMarketDataAfterTrade, bind, get, modify.
    rewrite Hmd. simpl. exact Hk. }
  assert (He2 : TradingEngine.sellTokens t2 m q w None e1
                = (Returned tx, settled t2 w m q price sell e1)).
  { rewrite sellTokens_run, Hmd1. cbv zeta. rewrite Hprice1, Hpos1.
    rewrite traded_quantity. simpl.
    assert (Hge : ltb (0 + q) q = false)
      by (apply ltb_ge; rewrite Qplus_0_l; apply Qle_refl).
    now rewrite Hge, Hk1. }
  split; [unfold result; now rewrite He1|].
  split; [unfold held; rewrite Hpos1; now rewrite traded_quantity|].
  split; [unfold result; now rewrite He2|].
  unfold e2, after. rewrite He2. simpl snd.
  apply settled_position_dropped.
  - unfold e1. apply (perform_distinct (BuyTokens t1 m q w None)). exact Hd.
  - unfold keeps. rewrite traded_quantity. apply gtb_le.
    apply sell_quantity_clamped. unfold entry. rewrite Hpos1.
    rewrite traded_quantity. simpl.
    assert (H : 0 + q - q == 0) by ring. now rewrite H.
Qed.

Lemma buy_then_sell_back_witness :
  position
    (after (TradingEngine.sellTokens 2 rolex1 250 "bob" None)
       (after (TradingEngine.buyTokens 1 rolex1 250 "bob" None) engine0))
    "bob" rolex1 = None.
Proof.
  apply (buy_then_sell_back engine0 1 2 rolex1 250 "bob"
           "11111111111111111111111111111111"
           (MarketData.mk rolex1 180 5.2 3.6 2800 18000000 100000 100000 185 175 0)).
  - vm_compute. reflexivity.
  - reflexivity.
  - apply (bool_decide_unpack _). vm_compute. exact I.
  - vm_compute. reflexivity.
  - vm_compute. reflexivity.
Defined.

(** ** Limit orders *)

Lemma placeLimitOrder_run now orderId m side q price w e :
  TradingEngine.placeLimitOrder now orderId m side q price w e
  = (Returned orderId,
     TradingEngine.set_orders
       (<[orderId := placed now orderId m side q price w OrderStatus.PENDING]>
          (TradingEngine.orders e)) e).
Proof. reflexivity. Qed.

(** X6. A limit order is stored as pending under its id with the fields
    given, and fills nothing: portfolios and market data are untouched.
    Its owner can cancel it once, which returns [true] and only changes
    its status; it is then no longer among the owner's open orders, and a
    second cancel throws [ORDER_NOT_CANCELLABLE]. *)
Theorem place_then_cancel (e : TradingEngine.t) (now : Z) (orderId m : string)
    (side : TradeSide) (q price : Q) (w : PublicKey) :
  let e1 := after (TradingEngine.placeLimitOrder now orderId m side q price w) e in
  let e2 := after (TradingEngine.cancelOrder orderId w) e1 in
  let pending := placed now orderId m side q price w OrderStatus.PENDING in
  let cancelled := placed now orderId m side q price w OrderStatus.CANCELLED in
  result (TradingEngine.placeLimitOrder now orderId m side q price w) e
  = Returned orderId
  /\ TradingEngine.orders e1 !! orderId = Some pending
  /\ TradingEngine.portfolios e1 = TradingEngine.portfolios e
  /\ TradingEngine.marketData e1 = TradingEngine.marketData e
  /\ (forall values, In pending values ->
      In pending (TradingEngine.getOpenOrders values w))
  /\ result (TradingEngine.cancelOrder orderId w) e1 = Returned true
  /\ TradingEngine.orders e2 !! orderId = Some cancelled
  /\ (forall values w', ~ In cancelled (TradingEngine.getOpenOrders values w'))
  /\ TradingEngine.cancelOrder orderId w e2
     = (Thrown (CollectFiError "ORDER_NOT_CANCELLABLE"), e2).
Proof.
  intros e1 e2 pending cancelled.
  assert (H1 : TradingEngine.orders e1 !! orderId = Some pending)
    by apply lookup_insert_eq.
  assert (Hc : TradingEngine.cancelOrder orderId w e1
               = (Returned true,
                  TradingEngine.set_orders
                    (<[orderId := cancelled]> (TradingEngine.orders e1)) e1)).
  { rewrite cancelOrder_run, H1. simpl. now rewrite String.eqb_refl. }
  assert (H2 : TradingEngine.orders e2 !! orderId = Some cancelled).
  { unfold e2, after. rewrite Hc. apply lookup_insert_eq. }
  repeat split; try assumption.
  - intros values Hin. apply filter_In. split; [exact Hin|].
    simpl. now rewrite String.eqb_refl.
  - unfold result. now rewrite Hc.
  - intros values w' Hin. apply filter_In in Hin as [_ Hin].
    simpl in Hin. now rewrite andb_false_r in Hin.
  - rewrite cancelOrder_run, H2. simpl. now rewrite String.eqb_refl.
Qed.

Lemma serve_unexecuted r e : unexecuted e -> unexecuted (serve r e).
Proof.
  intros Hu.
  destruct r as [now m q w mx|now m q w mn|now oid m side q price w|oid w];
    simpl; unfold after.
  - rewrite buyTokens_run.
    destruct (TradingEngine.marketData e !! m); [|exact Hu]. cbv zeta.
    destruct (truthy mx && _); [exact Hu|].
    destruct (TradingEngine.programKey e); [|exact Hu].
    unfold unexecuted. simpl snd. now rewrite settled_orders.
  - rewrite sellTokens_run.
    destruct (TradingEngine.marketData e !! m); [|exact Hu]. cbv zeta.
    destruct (truthy mn && _); [exact Hu|].
    destruct (position e w m); [|exact Hu].
    destruct (ltb _ q); [exact Hu|].
    destruct (TradingEngine.programKey e); [|exact Hu].
    unfold unexecuted. simpl snd. now rewrite settled_orders.
  - rewrite placeLimitOrder_run. unfold unexecuted. simpl.
    apply map_Forall_insert_2; [now left|exact Hu].
  - rewrite cancelOrder_run.
    destruct (TradingEngine.orders e !! oid); [|exact Hu].
    destruct (negb (String.eqb _ w)); [exact Hu|].
    destruct (negb (OrderStatus.eqb _ _)); [exact Hu|].
    unfold unexecuted. simpl. apply map_Forall_insert_2; [now right|exact Hu].
Qed.

Lemma session_unexecuted rs : forall e, unexecuted e -> unexecuted (session rs e).
Proof.
  induction rs as [|r rs IH]; intros e Hu; simpl; [exact Hu|].
  apply IH. now apply serve_unexecuted.
Qed.

Lemma sort_nil {A} (before : A -> A -> bool) : sort before [] = [].
Proof. reflexivity. Qed.

Lemma sliceTo_nil {A} (limit : Z) : sliceTo limit (@nil A) = [].
Proof. unfold sliceTo. destruct (0 <=? limit)%Z; apply firstn_nil. Qed.

(** X7. No order is ever executed: after any sequence of buys, sells,
    limit orders and cancellations on an engine that starts without
    orders, every stored order is pending or cancelled (a market trade
    stores none), so that the trading history of every asset is empty and
    the 24-hour volume of the orders is 0. *)
Theorem no_order_executes (key : option PublicKey)
    (marketData : gmap string MarketData.t) (rs : list Request)
    (values : list TradingOrder.t) :
  let e := session rs (opening key marketData) in
  unexecuted e
  /\ (stocked e values ->
      (forall m limit, TradingEngine.getTradingHistory values m limit = [])
      /\ (forall now, TradingEngine.getTotalVolume24h values now = 0)).
Proof.
  intros e.
  assert (Hu : unexecuted e).
  { apply session_unexecuted. intros i o Hl. simpl in Hl.
    now rewrite lookup_empty in Hl. }
  split; [exact Hu|]. intros Hs.
  assert (Hnot : Forall (fun o => OrderStatus.eqb (TradingOrder.status o)
                                     OrderStatus.EXECUTED = false) values).
  { eapply Forall_impl; [exact Hs|]. intros o [i Hi].
    destruct (Hu i o Hi) as [-> | ->]; reflexivity. }
  clear Hs. split.
  - intros m limit. unfold TradingEngine.getTradingHistory.
    replace (List.filter _ values) with (@nil TradingOrder.t);
      [apply sliceTo_nil|].
    induction Hnot as [|o l Ho _ IH]; simpl; [reflexivity|].
    now rewrite Ho, andb_false_r.
  - intros now. unfold TradingEngine.getTotalVolume24h.
    generalize 0. induction Hnot as [|o l Ho _ IH]; intros acc; simpl;
      [reflexivity|].
    rewrite Ho. simpl. apply IH.
Qed.

Lemma no_order_executes_witness :
  TradingEngine.getTradingHistory
    [placed 1 "order_1_aa" rolex1 buy 10 200 "bob" OrderStatus.CANCELLED]
    rolex1 100
  = [].
Proof.
  destruct (no_order_executes (Some "11111111111111111111111111111111")
              (TradingEngine.marketData engine0)
              [ReqPlace 1 "order_1_aa" rolex1 buy 10 200 "bob";
               ReqBuy 2 rolex1 10 "bob" None;
               ReqCancel "order_1_aa" "bob"]
              [placed 1 "order_1_aa" rolex1 buy 10 200 "bob" OrderStatus.CANCELLED])
    as [_ H].
  destruct H as [H _].
  - constructor; [|constructor]. exists "order_1_aa". vm_compute. reflexivity.
  - apply H.
Defined.

(** ** Reading the orders *)

Section Sorting.

Context {A : Type} (before : A -> A -> bool).

Lemma insertSorted_In x y l : In y (insertSorted before x l) <-> y = x \/ In y l.
Proof.
  induction l as [|z l IH]; simpl; [intuition congruence|].
  destruct (before x z); simpl; [intuition congruence|].
  rewrite IH. intuition congruence.
Qed.

Lemma sort_In y l : In y (sort before l) <-> In y l.
Proof.
  induction l as [|x l IH]; simpl; [reflexivity|].
  rewrite insertSorted_In, IH. intuition congruence.
Qed.

Lemma insertSorted_length x l : length (insertSorted before x l) = S (length l).
Proof.
  induction l as [|z l IH]; simpl; [reflexivity|].
  destruct (before x z); simpl; congruence.
Qed.

Lemma sort_length l : length (sort before l) = length l.
Proof.
  induction l as [|x l IH]; simpl; [reflexivity|].
  now rewrite insertSorted_length, IH.
Qed.

Variable R : A -> A -> Prop.
Hypothesis before_R : forall a b, before a b = true -> R a b.
Hypothesis after_R : forall a b, before a b = false -> R b a.
Hypothesis R_trans : forall a b c, R a b -> R b c -> R a c.

Lemma insertSorted_sorted x l :
  StronglySorted R l -> StronglySorted R (insertSorted before x l).
Proof.
  induction 1 as [|z l Hl IH Hz]; simpl.
  - repeat constructor.
  - destruct (before x z) eqn:Hb.
    + constructor; [now constructor|]. constructor; [now apply before_R|].
      eapply Forall_impl; [exact Hz|]. intros c Hc.
      eapply R_trans; [apply before_R|]; eassumption.
    + constructor; [exact IH|]. apply List.Forall_forall. intros c Hc.
      apply insertSorted_In in Hc as [->|Hc]; [now apply after_R|].
      exact (proj1 (List.Forall_forall _ _) Hz c Hc).
Qed.

Lemma sort_sorted l : StronglySorted R (sort before l).
Proof.
  induction l as [|x l IH]; simpl; [constructor|].
  now apply insertSorted_sorted.
Qed.

End Sorting.

Lemma in_firstn {A} n (l : list A) x : In x (firstn n l) -> In x l.
Proof.
  revert n. induction l as [|y l IH]; intros [|n]; simpl; try tauto.
  intros [->|H]; [now left|right; eauto].
Qed.

Lemma firstn_sorted {A} (R : A -> A -> Prop) n l :
  StronglySorted R l -> StronglySorted R (firstn n l).
Proof.
  intros Hs. revert n. induction Hs as [|x l Hl IH Hx]; intros [|n]; simpl;
    try constructor; auto.
  apply List.Forall_forall. intros y Hy. apply in_firstn in Hy.
  exact (proj1 (List.Forall_forall _ _) Hx y Hy).
Qed.

Lemma sliceTo_In {A} limit (l : list A) x : In x (sliceTo limit l) -> In x l.
Proof. unfold sliceTo. destruct (0 <=? limit)%Z; apply in_firstn. Qed.

Lemma sliceTo_sorted {A} (R : A -> A -> Prop) limit l :
  StronglySorted R l -> StronglySorted R (sliceTo limit l).
Proof. unfold sliceTo. destruct (0 <=? limit)%Z; apply firstn_sorted. Qed.

Lemma newestFirst_sorted l :
  newestFirstSorted (sort TradingEngine.newestFirst l).
Proof.
  apply sort_sorted; unfold TradingEngine.newestFirst.
  - intros a b H. apply Z.leb_le in H. lia.
  - intros a b H. apply Z.leb_gt in H. lia.
  - intros a b c H1 H2. lia.
Qed.

(** X8. The transaction history of a wallet lists orders of the array
    that belong to that wallet, and no others, from the newest to the
    oldest; it is never longer than the array, holds every order of the
    wallet when the limit is at least their number, and exactly [limit]
    of them when the limit is non-negative and smaller; a negative limit
    drops that many from the end instead. *)
Theorem transaction_history_shape (values : list TradingOrder.t) (w : string)
    (limit : Z) :
  let mine :=
    List.filter (fun o => String.eqb (TradingOrder.userId o) w) values in
  let shown := TradingEngine.getUserTransactionHistory values w limit in
  (forall o, In o shown -> In o values /\ TradingOrder.userId o = w)
  /\ newestFirstSorted shown
  /\ length shown
     = (if (0 <=? limit)%Z then Nat.min (Z.to_nat limit) (length mine)
        else length mine - Z.to_nat (- limit))%nat.
Proof.
  intros mine shown. subst shown. unfold TradingEngine.getUserTransactionHistory.
  fold mine. split; [|split].
  - intros o Ho. apply sliceTo_In, sort_In in Ho.
    apply filter_In in Ho as [Hin Hw]. split; [exact Hin|].
    now apply String.eqb_eq.
  - apply sliceTo_sorted, newestFirst_sorted.
  - unfold sliceTo. destruct (0 <=? limit)%Z;
      rewrite length_firstn, !sort_length; lia.
Qed.

(** ** Users *)

Lemma settled_portfolios now w m q price side e :
  exists p',
    TradingEngine.portfolios (settled now w m q price side e)
    = <[w := p']> (TradingEngine.portfolios e)
    /\ UserPortfolio.assets p'
       = List.filter keeps
           (TradingEngine.mutateFound m
              (traded (after (TradingEngine.updateMarketDataAfterTrade
                                now m q side price) e) m side q price)
              (slot m (UserPortfolio.assets (stored e w)))).
Proof.
  unfold settled.
  set (e1 := after (TradingEngine.updateMarketDataAfterTrade now m q side price) e).
  destruct (updateUserPortfolio_stores e1 w m q price side) as (p' & Hp & Ha).
  exists p'. unfold stored in *. unfold e1 in Hp, Ha at 2.
  rewrite updateMarketDataAfterTrade_portfolios in Hp, Ha. auto.
Qed.

Lemma serve_portfolios r e :
  TradingEngine.portfolios (serve r e) = TradingEngine.portfolios e
  \/ exists w p',
       TradingEngine.portfolios (serve r e) = <[w := p']> (TradingEngine.portfolios e).
Proof.
  destruct r as [now m q w mx|now m q w mn|now oid m side q price w|oid w];
    simpl; unfold after.
  - rewrite buyTokens_run.
    destruct (TradingEngine.marketData e !! m) as [md|]; [|now left]. cbv zeta.
    destruct (truthy mx && _); [now left|].
    destruct (TradingEngine.programKey e); [|now left]. right. simpl snd.
    destruct (settled_portfolios now w m q (MarketData.currentPrice md) buy e)
      as (p' & Hp & _). eauto.
  - rewrite sellTokens_run.
    destruct (TradingEngine.marketData e !! m) as [md|]; [|now left]. cbv zeta.
    destruct (truthy mn && _); [now left|].
    destruct (position e w m); [|now left].
    destruct (ltb _ q); [now left|].
    destruct (TradingEngine.programKey e); [|now left]. right. simpl snd.
    destruct (settled_portfolios now w m q (MarketData.currentPrice md) sell e)
      as (p' & Hp & _). eauto.
  - now left.
  - rewrite cancelOrder_run.
    destruct (TradingEngine.orders e !! oid); [|now left].
    destruct (negb (String.eqb _ w)); [now left|].
    destruct (negb (OrderStatus.eqb _ _)); now left.
Qed.

(** X9. Users are never removed: an account that has a portfolio keeps
    one through any sequence of buys, sells, limit orders and
    cancellations, even once it has sold everything, so that
    [getTotalUsers] never decreases. *)
Theorem users_never_leave (rs : list Request) (e : TradingEngine.t) :
  (forall w, is_Some (TradingEngine.portfolios e !! w) ->
             is_Some (TradingEngine.portfolios (session rs e) !! w))
  /\ exists n n',
       result TradingEngine.getTotalUsers e = Returned n
       /\ result TradingEngine.getTotalUsers (session rs e) = Returned n'
       /\ (n <= n')%nat.
Proof.
  revert e. induction rs as [|r rs IH]; intros e; simpl.
  - split; [auto|]. exists (size (TradingEngine.portfolios e)),
      (size (TradingEngine.portfolios e)). repeat split. lia.
  - destruct (IH (serve r e)) as (Hkeep & n1 & n' & Hn1 & Hn' & Hle).
    unfold result, TradingEngine.getTotalUsers, bind, get, ret in *. simpl in *.
    injection Hn1 as <-.
    destruct (serve_portfolios r e) as [Heq|(w & p' & Heq)].
    + rewrite Heq in *. split; [exact Hkeep|].
      exists (size (TradingEngine.portfolios e)), n'. repeat split; auto.
    + split.
      * intros w' Hw'. apply Hkeep. rewrite Heq.
        destruct (decide (w = w')) as [->|Hne].
        -- rewrite lookup_insert_eq. eauto.
        -- now rewrite lookup_insert_ne.
      * exists (size (TradingEngine.portfolios e)), n'. repeat split; auto.
        rewrite Heq, map_size_insert in Hle.
        destruct (TradingEngine.portfolios e !! w); simpl in Hle; lia.
Qed.

(** ** The life of a redemption request *)

Lemma restamp_identity now status tracking r :
  identity (VaultManager.restamp now status tracking r) = identity r.
Proof. reflexivity. Qed.

Lemma guarded_on_request now requestId g v r :
  requestOf requestId v = Some r ->
  guarded now requestId g v
  = match guard g r with
    | Some x => (Thrown x, v)
    | None =>
        (Returned true,
         VaultManager.mk
           (<[requestId :=
                VaultManager.restamp now (fst (target g)) (snd (target g)) r]>
              (VaultManager.redemptionRequests v)))
    end.
Proof.
  unfold requestOf. intros Hr. rewrite guarded_run, Hr.
  destruct (guard g r); [reflexivity|].
  unfold after. now rewrite updateRedemptionStatus_run, Hr.
Qed.

(** X12. Each of [processRedemption], [shipRedemption],
    [markRedemptionDelivered] and [cancelRedemption], called on a stored
    request, either throws and changes nothing, or returns [true] and
    moves the status one step along pending, processing, shipped,
    delivered (or from pending to cancelled); the id, owner, asset,
    quantity, request date and shipping address of the request stay, and
    so does every other request. *)
Theorem guarded_step (now : Z) (requestId : string) (g : Guarded)
    (v : VaultManager.t) (r : RedemptionRequest.t) :
  requestOf requestId v = Some r ->
  let v' := after (guarded now requestId g) v in
  ((exists x, result (guarded now requestId g) v = Thrown x) /\ v' = v
   \/ result (guarded now requestId g) v = Returned true
      /\ exists r',
           requestOf requestId v' = Some r'
           /\ advances (RedemptionRequest.status r) (RedemptionRequest.status r')
           /\ identity r' = identity r)
  /\ forall other, other <> requestId -> requestOf other v' = requestOf other v.
Proof.
  intros Hr v'. subst v'. unfold result, after.
  rewrite (guarded_on_request _ _ _ _ _ Hr).
  destruct (guard g r) as [x|] eqn:Hg; simpl.
  - split; [left; eauto|auto].
  - split.
    + right. split; [reflexivity|]. eexists. unfold requestOf. simpl.
      rewrite lookup_insert_eq. split; [reflexivity|]. split.
      * simpl. now apply guard_advances.
      * apply restamp_identity.
    + intros other Hne. unfold requestOf. simpl. now apply lookup_insert_ne.
Qed.

Lemma guarded_step_witness :
  let v' := after (guarded 3 redemptionId ProcessRedemption) vaultPending in
  ((exists x, result (guarded 3 redemptionId ProcessRedemption) vaultPending
              = Thrown x) /\ v' = vaultPending
   \/ result (guarded 3 redemptionId ProcessRedemption) vaultPending = Returned true
      /\ exists r',
           requestOf redemptionId v' = Some r'
           /\ advances RedemptionStatus.PENDING (RedemptionRequest.status r')
           /\ identity r'
              = identity (pendingRequest 2 redemptionId rolex1 "alice" home))
  /\ forall other, other <> redemptionId ->
       requestOf other v' = requestOf other vaultPending.
Proof.
  apply (guarded_step 3 redemptionId ProcessRedemption vaultPending
           (pendingRequest 2 redemptionId rolex1 "alice" home)).
  vm_compute. reflexivity.
Defined.

(** X13. A delivered or cancelled request is final for these four
    methods: whoever calls, each of them throws and leaves the vault
    manager unchanged. *)
Theorem final_status_is_final (now : Z) (requestId : string) (g : Guarded)
    (v : VaultManager.t) (r : RedemptionRequest.t) :
  requestOf requestId v = Some r ->
  final (RedemptionRequest.status r) ->
  exists x, guarded now requestId g v = (Thrown (CollectFiError x), v).
Proof.
  intros Hr Hf. rewrite (guarded_on_request _ _ _ _ _ Hr).
  destruct g as [|t| |u]; unfold guard;
    try (destruct (negb (String.eqb _ u)); [eauto|]);
    destruct Hf as [-> | ->]; simpl; eauto.
Qed.

Lemma final_status_is_final_witness :
  exists x,
    guarded 6 redemptionId (CancelRedemption "alice") vaultDelivered
    = (Thrown (CollectFiError x), vaultDelivered).
Proof.
  apply (final_status_is_final 6 redemptionId (CancelRedemption "alice")
           vaultDelivered
           (RedemptionRequest.mk redemptionId "alice" rolex1 100000
              RedemptionStatus.DELIVERED 2 (Some 3%Z) home (Some "TRACK-1"))).
  - vm_compute. reflexivity.
  - left. reflexivity.
Defined.

(** X14. A request that is created, processed, shipped with a non-empty
    tracking number and delivered, in that order, is accepted at every
    step and ends as delivered, carrying the date of processing and the
    tracking number, and otherwise as it was created. *)
Theorem redemption_runs_its_course (v : VaultManager.t) (t0 t1 t2 t3 : Z)
    (requestId m : string) (w : PublicKey) (addr : ShippingAddress.t)
    (tracking : string) :
  tracking <> "" ->
  let v1 := after (VaultManager.requestRedemption t0 requestId m w addr) v in
  let v2 := after (VaultManager.processRedemption t1 requestId) v1 in
  let v3 := after (VaultManager.shipRedemption t2 requestId tracking) v2 in
  let v4 := after (VaultManager.markRedemptionDelivered t3 requestId) v3 in
  result (VaultManager.requestRedemption t0 requestId m w addr) v
  = Returned requestId
  /\ result (VaultManager.processRedemption t1 requestId) v1 = Returned true
  /\ result (VaultManager.shipRedemption t2 requestId tracking) v2 = Returned true
  /\ result (VaultManager.markRedemptionDelivered t3 requestId) v3 = Returned true
  /\ requestOf requestId v4
     = Some (RedemptionRequest.mk requestId w m 100000 RedemptionStatus.DELIVERED
               t0 (Some t1) addr (Some tracking)).
Proof.
  intros Ht v1 v2 v3 v4.
  assert (Hg : negb (String.eqb tracking "") = true).
  { apply String.eqb_neq in Ht. now rewrite Ht. }
  assert (H1 : requestOf requestId v1 = Some (pendingRequest t0 requestId m w addr))
    by apply lookup_insert_eq.
  pose proof (guarded_on_request t1 requestId ProcessRedemption v1 _ H1) as E2.
  simpl in E2. fold v2 in E2.
  assert (H2 : requestOf requestId v2
               = Some (RedemptionRequest.mk requestId w m 100000
                         RedemptionStatus.PROCESSING t0 (Some t1) addr None)).
  { unfold v2, after. rewrite E2. apply lookup_insert_eq. }
  pose proof (guarded_on_request t2 requestId (ShipRedemption tracking) v2 _ H2)
    as E3.
  simpl in E3. unfold VaultManager.restamp, VaultManager.given in E3.
  simpl in E3. rewrite Hg in E3.
  assert (H3 : requestOf requestId v3
               = Some (RedemptionRequest.mk requestId w m 100000
                         RedemptionStatus.SHIPPED t0 (Some t1) addr (Some tracking))).
  { unfold v3, after. rewrite E3. apply lookup_insert_eq. }
  pose proof (guarded_on_request t3 requestId MarkRedemptionDelivered v3 _ H3)
    as E4.
  simpl in E4.
  split; [reflexivity|]. unfold result.
  split; [now rewrite E2|]. split; [now rewrite E3|]. split; [now rewrite E4|].
  unfold v4, after. rewrite E4. apply lookup_insert_eq.
Qed.

Lemma redemption_runs_its_course_witness :
  requestOf redemptionId vaultDelivered
  = Some (RedemptionRequest.mk redemptionId "alice" rolex1 100000
            RedemptionStatus.DELIVERED 2 (Some 3%Z) home (Some "TRACK-1")).
Proof.
  apply (redemption_runs_its_course VaultManager.new 2 3 4 5 redemptionId rolex1
           "alice" home "TRACK-1").
  discriminate.
Defined.

(** X15. [shipRedemption] does not require a tracking number: called
    with the empty string on a request in processing it returns [true]
    and marks the request shipped, and the tracking number of the request
    stays what it was. *)
Theorem ships_without_tracking (now : Z) (requestId : string)
    (v : VaultManager.t) (r : RedemptionRequest.t) :
  requestOf requestId v = Some r ->
  RedemptionRequest.status r = RedemptionStatus.PROCESSING ->
  result (VaultManager.shipRedemption now requestId "") v = Returned true
  /\ exists r',
       requestOf requestId (after (VaultManager.shipRedemption now requestId "") v)
       = Some r'
       /\ RedemptionRequest.status r' = RedemptionStatus.SHIPPED
       /\ RedemptionRequest.trackingNumber r' = RedemptionRequest.trackingNumber r.
Proof.
  intros Hr Hs.
  pose proof (guarded_on_request now requestId (ShipRedemption "") v r Hr) as E.
  simpl in E. rewrite Hs in E. simpl in E.
  unfold result, after. rewrite E. split; [reflexivity|].
  eexists. split; [apply lookup_insert_eq|]. split; reflexivity.
Qed.

Lemma ships_without_tracking_witness :
  result (VaultManager.shipRedemption 4 redemptionId "") vaultProcessing
  = Returned true
  /\ exists r',
       requestOf redemptionId
         (after (VaultManager.shipRedemption 4 redemptionId "") vaultProcessing)
       = Some r'
       /\ RedemptionRequest.status r' = RedemptionStatus.SHIPPED
       /\ RedemptionRequest.trackingNumber r' = None.
Proof.
  apply (ships_without_tracking 4 redemptionId vaultProcessing
           (RedemptionRequest.mk redemptionId "alice" rolex1 100000
              RedemptionStatus.PROCESSING 2 (Some 3%Z) home None)).
  - vm_compute. reflexivity.
  - reflexivity.
Defined.

(** X16. An id that the vault manager does not know is reported without
    any exception: the four methods and [updateRedemptionStatus] return
    [false] and change nothing, and the status route, for a caller with
    the administrative permission and a valid status, answers 404. *)
Theorem unknown_request_is_false (now : Z) (requestId : string)
    (v : VaultManager.t) :
  requestOf requestId v = None ->
  (forall g, guarded now requestId g v = (Returned false, v))
  /\ (forall status tracking,
        VaultManager.updateRedemptionStatus now requestId status tracking v
        = (Returned false, v))
  /\ (forall req,
        VaultRoute.requestId req = requestId ->
        VaultRoute.hasPermission req "admin:redemption" = true ->
        VaultRoute.includes (VaultRoute.status req) VaultRoute.validStatuses = true ->
        VaultRoute.putRedemptionStatus now req v
        = (VaultRoute.mkResponse 404 false (Some "REDEMPTION_REQUEST_NOT_FOUND"), v)).
Proof.
  unfold requestOf. intros Hr.
  assert (Hg : forall g, guarded now requestId g v = (Returned false, v))
    by (intros g; now rewrite guarded_run, Hr).
  assert (Hu : forall status tracking,
             VaultManager.updateRedemptionStatus now requestId status tracking v
             = (Returned false, v))
    by (intros; now rewrite updateRedemptionStatus_run, Hr).
  split; [exact Hg|]. split; [exact Hu|].
  intros req <- Hp Hv. unfold VaultRoute.putRedemptionStatus.
  rewrite Hp, andb_false_r, Hv. simpl negb. cbv iota.
  assert (Hs : exists t, VaultRoute.statusOfString (VaultRoute.status req) = Some t).
  { unfold VaultRoute.includes, VaultRoute.validStatuses in Hv. simpl in Hv.
    unfold VaultRoute.statusOfString.
    destruct (String.eqb (VaultRoute.status req) "pending"); [eauto|].
    destruct (String.eqb (VaultRoute.status req) "processing"); [eauto|].
    destruct (String.eqb (VaultRoute.status req) "shipped"); [eauto|].
    destruct (String.eqb (VaultRoute.status req) "delivered"); [eauto|].
    destruct (String.eqb (VaultRoute.status req) "cancelled"); [eauto|].
    discriminate. }
  destruct Hs as [t ->].
  pose proof (Hg (ShipRedemption (default "" (VaultRoute.trackingNumber req)))) as H1.
  pose proof (Hg MarkRedemptionDelivered) as H2. simpl in H1, H2.
  destruct (_ && _); [now rewrite H1|].
  destruct (String.eqb _ "delivered"); [now rewrite H2|]. now rewrite Hu.
Qed.

Lemma unknown_request_is_false_witness :
  VaultRoute.putRedemptionStatus 9
    (VaultRoute.mkRequest (Some ["admin:redemption"]) "redemption_0_none"
       "delivered" None) vaultPending
  = (VaultRoute.mkResponse 404 false (Some "REDEMPTION_REQUEST_NOT_FOUND"),
     vaultPending).
Proof.
  apply (unknown_request_is_false 9 "redemption_0_none" vaultPending);
    vm_compute; reflexivity.
Defined.

(** X17. The status route changes nothing for a caller who has neither
    the permission [*] nor [admin:redemption], whom it answers 403, nor
    for a status outside processing, shipped, delivered and cancelled,
    which it answers 400: no call of the route can set a request back to
    pending. *)
Theorem status_route_refusals (now : Z) (req : VaultRoute.Request)
    (v : VaultManager.t) :
  (VaultRoute.hasPermission req "*" = false ->
   VaultRoute.hasPermission req "admin:redemption" = false ->
   VaultRoute.putRedemptionStatus now req v
   = (VaultRoute.mkResponse 403 false (Some "INSUFFICIENT_PERMISSIONS"), v))
  /\ (VaultRoute.includes (VaultRoute.status req) VaultRoute.validStatuses = false ->
      exists resp,
        VaultRoute.putRedemptionStatus now req v = (resp, v)
        /\ VaultRoute.success resp = false)
  /\ (statusOf (VaultRoute.requestId req) v <> Some RedemptionStatus.PENDING ->
      statusOf (VaultRoute.requestId req)
        (snd (VaultRoute.putRedemptionStatus now req v))
      <> Some RedemptionStatus.PENDING).
Proof.
  split; [|split].
  - intros H1 H2. unfold VaultRoute.putRedemptionStatus. now rewrite H1, H2.
  - intros Hv. unfold VaultRoute.putRedemptionStatus. rewrite Hv.
    destruct (_ && _); eauto.
  - intros Hs. unfold VaultRoute.putRedemptionStatus.
    destruct (negb (VaultRoute.hasPermission req "*") && _); [exact Hs|].
    destruct (negb (VaultRoute.includes _ _)) eqn:Hv; [exact Hs|].
    destruct (VaultRoute.statusOfString (VaultRoute.status req)) as [t|] eqn:Ht;
      [|exact Hs].
    assert (Htp : t <> RedemptionStatus.PENDING).
    { intros ->. unfold VaultRoute.statusOfString in Ht.
      destruct (String.eqb (VaultRoute.status req) "pending") eqn:Hp.
      - apply String.eqb_eq in Hp. rewrite Hp in Hv. vm_compute in Hv.
        discriminate Hv.
      - simpl in Ht.
        repeat (destruct (String.eqb (VaultRoute.status req) _);
                simpl in Ht; try discriminate Ht). }
    set (id := VaultRoute.requestId req) in *.
    assert (Hgen : forall (c : M VaultManager.t bool),
               (c v).2 = v
               \/ (exists s, statusOf id (c v).2 = Some s
                             /\ s <> RedemptionStatus.PENDING) ->
               statusOf id
                 (match c v with
                  | (Returned true, v') => (VaultRoute.mkResponse 200 true None, v')
                  | (Returned false, v') =>
                      (VaultRoute.mkResponse 404 false
                         (Some "REDEMPTION_REQUEST_NOT_FOUND"), v')
                  | (Thrown _, v') =>
                      (VaultRoute.mkResponse 400 false
                         (Some "STATUS_UPDATE_FAILED"), v')
                  end).2 <> Some RedemptionStatus.PENDING).
    { intros c Hc. destruct (c v) as [[[|]|x] v'] eqn:Hcv; simpl in *;
        (destruct Hc as [->|(s & -> & Hne)]; [exact Hs|congruence]). }
    assert (Hguard : forall g,
               (guarded now id g v).2 = v
               \/ (exists s, statusOf id (guarded now id g v).2 = Some s
                             /\ s <> RedemptionStatus.PENDING)).
    { intros g. destruct (statusOf id v) as [s|] eqn:Hst.
      - destruct (guarded_follows_machine now id g v s Hst) as [H|(s' & H & Ha)];
          [now left|right]. exists s'. split; [exact H|].
        intros ->. inversion Ha.
      - left. unfold statusOf in Hst. rewrite guarded_run.
        destruct (VaultManager.redemptionRequests v !! id); [discriminate|].
        reflexivity. }
    destruct (_ && _).
    + apply (Hgen (guarded now id (ShipRedemption _))), Hguard.
    + destruct (String.eqb _ "delivered").
      * apply (Hgen (guarded now id MarkRedemptionDelivered)), Hguard.
      * apply Hgen. rewrite updateRedemptionStatus_run.
        destruct (VaultManager.redemptionRequests v !! id); [|now left].
        right. exists t. split; [|exact Htp]. unfold statusOf. simpl.
        now rewrite lookup_insert_eq.
Qed.

Lemma status_route_refusals_witness :
  VaultRoute.putRedemptionStatus 9
    (VaultRoute.mkRequest (Some ["write:redemption"]) redemptionId "cancelled" None)
    vaultPending
  = (VaultRoute.mkResponse 403 false (Some "INSUFFICIENT_PERMISSIONS"), vaultPending)
  /\ statusOf redemptionId
       (snd (VaultRoute.putRedemptionStatus 9 (adminPut "pending") vaultDelivered))
     <> Some RedemptionStatus.PENDING.
Proof.
  split.
  - apply (status_route_refusals 9
             (VaultRoute.mkRequest (Some ["write:redemption"]) redemptionId
                "cancelled" None) vaultPending); reflexivity.
  - apply (status_route_refusals 9 (adminPut "pending") vaultDelivered).
    vm_compute. discriminate.
Defined.

(** X18. Redemption requests are never deleted: the four methods and
    [updateRedemptionStatus] keep the set of stored ids, and
    [requestRedemption] under an id not yet in use raises
    [getTotalRedemptions] by one. *)
Theorem requests_are_kept (now : Z) (requestId : string) (v : VaultManager.t) :
  (forall g,
     dom (VaultManager.redemptionRequests (after (guarded now requestId g) v))
     = dom (VaultManager.redemptionRequests v))
  /\ (forall status tracking,
        dom (VaultManager.redemptionRequests
               (after (VaultManager.updateRedemptionStatus now requestId status
                         tracking) v))
        = dom (VaultManager.redemptionRequests v))
  /\ (forall m w addr,
        requestOf requestId v = None ->
        result VaultManager.getTotalRedemptions
          (after (VaultManager.requestRedemption now requestId m w addr) v)
        = Returned (S (size (VaultManager.redemptionRequests v)))).
Proof.
  assert (Hins : forall r r',
             VaultManager.redemptionRequests v !! requestId = Some r ->
             dom (<[requestId := r']> (VaultManager.redemptionRequests v))
             = dom (VaultManager.redemptionRequests v)).
  { intros r r' Hr. apply dom_insert_lookup_L. eauto. }
  split; [|split].
  - intros g. unfold after. rewrite guarded_run.
    destruct (VaultManager.redemptionRequests v !! requestId) as [r|] eqn:Hr;
      [|reflexivity].
    destruct (guard g r); [reflexivity|]. simpl snd. unfold after.
    rewrite updateRedemptionStatus_run, Hr. simpl. eapply Hins; eauto.
  - intros status tracking. unfold after.
    rewrite updateRedemptionStatus_run.
    destruct (VaultManager.redemptionRequests v !! requestId) as [r|] eqn:Hr;
      [|reflexivity].
    simpl. eapply Hins; eauto.
  - unfold requestOf. intros m w addr Hr.
    unfold result, after, VaultManager.getTotalRedemptions, bind, get, ret. simpl.
    now rewrite map_size_insert_None.
Qed.

Lemma requests_are_kept_witness :
  result VaultManager.getTotalRedemptions
    (after (VaultManager.requestRedemption 7 "redemption_7_cd34" rolex1 "bob" home)
       vaultDelivered)
  = Returned (S (size (VaultManager.redemptionRequests vaultDelivered))).
Proof.
  apply (requests_are_kept 7 "redemption_7_cd34" vaultDelivered).
  vm_compute. reflexivity.
Defined.

(** ** Assets and their price history *)

Lemma addAsset_run now ts asset a :
  let id := AssetManager.generateAssetId (NewAsset.name asset) ts in
  let h := length (AssetManager.arrays a) in
  let o := length (AssetManager.objects a) in
  AssetManager.addAsset now ts asset a
  = (Returned id,
     AssetManager.mk
       (AssetManager.objects a
        ++ [CollectibleAsset.mk id (NewAsset.name asset)
              (NewAsset.description asset) (NewAsset.category asset)
              (NewAsset.mint asset) (NewAsset.totalSupply asset)
              (NewAsset.circulatingSupply asset) (NewAsset.currentPrice asset)
              h now now])%list
       (AssetManager.arrays a ++ [NewAsset.priceHistory asset; []])%list
       (<[NewAsset.mint asset := o]> (<[id := o]> (AssetManager.assets a)))
       (<[NewAsset.mint asset := S h]> (AssetManager.priceHistory a))).
Proof. reflexivity. Qed.

(** X19. An asset that was added is found under its generated id and
    under its mint, as one and the same asset with the fields given, the
    two dates set to the time of the call and the price history supplied;
    each asset counts twice in [getTotalAssets], once per key. *)
Theorem added_asset_has_two_keys (a : AssetManager.t) (now : Z) (ts : string)
    (asset : NewAsset.t) :
  let id := AssetManager.generateAssetId (NewAsset.name asset) ts in
  let a' := after (AssetManager.addAsset now ts asset) a in
  let stored :=
    CollectibleAsset.mk id (NewAsset.name asset) (NewAsset.description asset)
      (NewAsset.category asset) (NewAsset.mint asset) (NewAsset.totalSupply asset)
      (NewAsset.circulatingSupply asset) (NewAsset.currentPrice asset)
      (length (AssetManager.arrays a)) now now in
  result (AssetManager.addAsset now ts asset) a = Returned id
  /\ result (AssetManager.getAssetById id) a' = Returned (Some stored)
  /\ result (AssetManager.getAssetByMint (NewAsset.mint asset)) a'
     = Returned (Some stored)
  /\ AssetManager.historyOf id a' = Some (NewAsset.priceHistory asset)
  /\ (AssetManager.assets a !! id = None ->
      AssetManager.assets a !! NewAsset.mint asset = None ->
      id <> NewAsset.mint asset ->
      result AssetManager.getTotalAssets a'
      = Returned (2 + size (AssetManager.assets a))%nat).
Proof.
  intros id a' stored.
  set (o := length (AssetManager.objects a)).
  assert (Ha' : a'
                = AssetManager.mk
                    (AssetManager.objects a ++ [stored])%list
                    (AssetManager.arrays a ++ [NewAsset.priceHistory asset; []])%list
                    (<[NewAsset.mint asset := o]>
                       (<[id := o]> (AssetManager.assets a)))
                    (<[NewAsset.mint asset := S (length (AssetManager.arrays a))]>
                       (AssetManager.priceHistory a)))
    by reflexivity.
  assert (Hobj : AssetManager.objects a' !! o = Some stored)
    by (rewrite Ha'; apply list_lookup_middle; reflexivity).
  assert (Hid : AssetManager.getAsset id a' = Some stored).
  { unfold AssetManager.getAsset.
    replace (AssetManager.assets a')
      with (<[NewAsset.mint asset := o]> (<[id := o]> (AssetManager.assets a)))
      by reflexivity.
    destruct (decide (NewAsset.mint asset = id)) as [Heq|Hne].
    - rewrite Heq, lookup_insert_eq. exact Hobj.
    - rewrite lookup_insert_ne, lookup_insert_eq by assumption. exact Hobj. }
  assert (Hmint : AssetManager.getAsset (NewAsset.mint asset) a' = Some stored).
  { unfold AssetManager.getAsset.
    replace (AssetManager.assets a')
      with (<[NewAsset.mint asset := o]> (<[id := o]> (AssetManager.assets a)))
      by reflexivity.
    rewrite lookup_insert_eq. exact Hobj. }
  split; [reflexivity|]. split; [|split; [|split]].
  - change (Returned (AssetManager.getAsset id a') = Returned (Some stored)).
    now rewrite Hid.
  - change (Returned (AssetManager.getAsset (NewAsset.mint asset) a')
            = Returned (Some stored)).
    now rewrite Hmint.
  - unfold AssetManager.historyOf. rewrite Hid. rewrite Ha'. simpl.
    apply list_lookup_middle. reflexivity.
  - intros H1 H2 Hne.
    change (Returned (size (AssetManager.assets a'))
            = Returned (2 + size (AssetManager.assets a))%nat).
    rewrite Ha'. simpl.
    rewrite !map_size_insert_None; auto.
    rewrite lookup_insert_ne; auto.
Qed.

Lemma added_asset_has_two_keys_witness :
  result AssetManager.getTotalAssets managerC = Returned 2%nat.
Proof.
  apply (added_asset_has_two_keys AssetManager.new 1 "1700000000000" card);
    vm_compute; (reflexivity || discriminate).
Defined.

(** The manager after a price update through a key of a stored asset. *)
Lemma updateAssetPrice_known now key price a o asset points :
  AssetManager.assets a !! key = Some o ->
  AssetManager.objects a !! o = Some asset ->
  AssetManager.arrays a !! CollectibleAsset.priceHistory asset = Some points ->
  let pt :=
    PricePoint.mk now price 0 (price * CollectibleAsset.totalSupply asset) in
  let a' := after (AssetManager.updateAssetPrice now key price) a in
  exists h',
    AssetManager.assets a' = AssetManager.assets a
    /\ AssetManager.objects a'
       = <[o := CollectibleAsset.mk
                  (CollectibleAsset.id asset) (CollectibleAsset.name asset)
                  (CollectibleAsset.description asset)
                  (CollectibleAsset.category asset) (CollectibleAsset.mint asset)
                  (CollectibleAsset.totalSupply asset)
                  (CollectibleAsset.circulatingSupply asset)
                  price h' (CollectibleAsset.createdAt asset) now]>
           (AssetManager.objects a)
    /\ AssetManager.priceHistory a' = <[key := h']> (AssetManager.priceHistory a)
    /\ AssetManager.arrays a' !! h'
       = Some (skipn (S (length points) - 1000) (points ++ [pt])).
Proof.
  intros Ho Hasset Hpoints pt a'. subst a'.
  unfold after, AssetManager.updateAssetPrice, bind, get, modify.
  rewrite Ho, Hasset, Hpoints. cbv zeta. simpl fst. simpl snd.
  cbn [default]. fold pt.
  pose proof (lookup_lt_Some _ _ _ Hpoints) as Hlt.
  assert (Hlen : length (points ++ [pt]) = S (length points))
    by (rewrite length_app; simpl; lia).
  destruct (1000 <? length (points ++ [pt]))%nat eqn:Hs.
  - eexists. repeat split. cbn [AssetManager.arrays].
    rewrite lookup_app_r by (rewrite length_insert; lia).
    rewrite length_insert, Nat.sub_diag. simpl lookup.
    unfold AssetManager.lastThousand. now rewrite Hlen.
  - eexists. repeat split. cbn [AssetManager.arrays].
    rewrite list_lookup_insert_eq by assumption.
    apply Nat.ltb_ge in Hs. rewrite Hlen in Hs.
    replace (S (length points) - 1000)%nat with 0%nat by lia. reflexivity.
Qed.

(** X20. The two keys of an asset name one object: a price update made
    through either key is seen through the other, which shows the new
    price, the date of the update and the same lengthened history. *)
Theorem price_update_seen_through_other_key (a : AssetManager.t) (now : Z)
    (k1 k2 : string) (price : Q) (o : nat) (asset : CollectibleAsset.t)
    (points : list PricePoint.t) :
  AssetManager.assets a !! k1 = Some o ->
  AssetManager.assets a !! k2 = Some o ->
  AssetManager.objects a !! o = Some asset ->
  AssetManager.arrays a !! CollectibleAsset.priceHistory asset = Some points ->
  let a' := after (AssetManager.updateAssetPrice now k1 price) a in
  exists asset',
    AssetManager.getAsset k2 a' = Some asset'
    /\ AssetManager.getAsset k1 a' = Some asset'
    /\ CollectibleAsset.currentPrice asset' = price
    /\ CollectibleAsset.updatedAt asset' = now
    /\ CollectibleAsset.totalSupply asset' = CollectibleAsset.totalSupply asset
    /\ latestPoint k2 a'
       = Some (PricePoint.mk now price 0
                 (price * CollectibleAsset.totalSupply asset)).
Proof.
  intros H1 H2 Hasset Hpoints a'.
  destruct (updateAssetPrice_known now k1 price a o asset points H1 Hasset Hpoints)
    as (h' & Hassets & Hobjects & _ & Harr).
  fold a' in Hassets, Hobjects, Harr.
  pose proof (lookup_lt_Some _ _ _ Hasset) as Hlt.
  eexists. unfold latestPoint, AssetManager.historyOf, AssetManager.getAsset.
  rewrite Hassets, H1, H2, Hobjects, list_lookup_insert_eq by assumption.
  repeat split. cbn [CollectibleAsset.priceHistory]. rewrite Harr.
  rewrite drop_app_le by lia. apply last_snoc.
Qed.

Lemma price_update_seen_through_other_key_witness :
  exists asset',
    AssetManager.getAsset "CHARIZARDmint1"
      (after (AssetManager.updateAssetPrice 2
                "charizard-1st-edition-1700000000000" 5) managerC)
    = Some asset'
    /\ CollectibleAsset.currentPrice asset' = 5.
Proof.
  destruct (price_update_seen_through_other_key managerC 2
              "charizard-1st-edition-1700000000000" "CHARIZARDmint1" 5 0
              (CollectibleAsset.mk "charizard-1st-edition-1700000000000"
                 "Charizard 1st Edition" "PSA 10 holographic card"
                 "trading_cards" "CHARIZARDmint1" 100000 60000 3 0 1 1) [])
    as (asset' & H & _ & Hp & _); try (vm_compute; reflexivity).
  exists asset'. auto.
Defined.

(** X21. After a price update the price history of the asset is the
    former one with the new point at its end, cut to its last 1000
    points, so that a history of at most 1000 points never grows beyond
    1000; [getPriceHistory] under the key of the update reads that
    history, restricted to the timeframe. *)
Theorem price_history_is_bounded (a : AssetManager.t) (now : Z) (key : string)
    (price : Q) (asset : CollectibleAsset.t) (points : list PricePoint.t) :
  AssetManager.getAsset key a = Some asset ->
  AssetManager.arrays a !! CollectibleAsset.priceHistory asset = Some points ->
  let pt :=
    PricePoint.mk now price 0 (price * CollectibleAsset.totalSupply asset) in
  exists points',
    AssetManager.historyOf key (after (AssetManager.updateAssetPrice now key price) a)
    = Some points'
    /\ points' = skipn (S (length points) - 1000) (points ++ [pt])
    /\ length points' = Nat.min (S (length points)) 1000
    /\ forall t timeframe,
         result (AssetManager.getPriceHistory t key timeframe)
           (after (AssetManager.updateAssetPrice now key price) a)
         = Returned
             (List.filter
                (fun p =>
                   (t - AssetManager.span timeframe <=? PricePoint.timestamp p)%Z)
                points').
Proof.
  intros Hget Hpoints pt. unfold AssetManager.getAsset in Hget.
  destruct (AssetManager.assets a !! key) as [o|] eqn:Ho; [|discriminate].
  destruct (updateAssetPrice_known now key price a o asset points Ho Hget Hpoints)
    as (h' & Hassets & Hobjects & Hmap & Harr).
  fold pt in Harr.
  pose proof (lookup_lt_Some _ _ _ Hget) as Hlt.
  eexists. split; [|split; [reflexivity|split]].
  - unfold AssetManager.historyOf, AssetManager.getAsset.
    rewrite Hassets, Ho, Hobjects, list_lookup_insert_eq by assumption.
    exact Harr.
  - rewrite length_skipn, length_app. simpl. lia.
  - intros t timeframe.
    unfold result, AssetManager.getPriceHistory, bind, get, ret. simpl fst.
    rewrite Hmap, lookup_insert_eq, Harr. reflexivity.
Qed.

Lemma price_history_is_bounded_witness :
  exists points',
    AssetManager.historyOf "CHARIZARDmint1"
      (after (AssetManager.updateAssetPrice 2 "CHARIZARDmint1" 5) managerC)
    = Some points'
    /\ length points' = 1%nat.
Proof.
  destruct (price_history_is_bounded managerC 2 "CHARIZARDmint1" 5
              (CollectibleAsset.mk "charizard-1st-edition-1700000000000"
                 "Charizard 1st Edition" "PSA 10 holographic card"
                 "trading_cards" "CHARIZARDmint1" 100000 60000 3 0 1 1) [])
    as (points' & H & _ & Hl & _); try (vm_compute; reflexivity).
  exists points'. auto.
Defined.

(** X22. A key that names no asset is no error: a price update under it
    changes nothing, [removeAsset] returns [false] and changes nothing,
    the asset is read as absent, and the price history of a key without
    history is empty for every timeframe. *)
Theorem unknown_asset_key (a : AssetManager.t) (now : Z) (key : string) (price : Q) :
  AssetManager.assets a !! key = None ->
  AssetManager.updateAssetPrice now key price a = (Returned tt, a)
  /\ AssetManager.removeAsset key a = (Returned false, a)
  /\ AssetManager.getAssetByMint key a = (Returned None, a)
  /\ (AssetManager.priceHistory a !! key = None ->
      forall timeframe,
        AssetManager.getPriceHistory now key timeframe a = (Returned [], a)).
Proof.
  intros Hk. repeat split.
  - unfold AssetManager.updateAssetPrice, bind, get. now rewrite Hk.
  - unfold AssetManager.removeAsset, AssetManager.getAsset, bind, get.
    now rewrite Hk.
  - unfold AssetManager.getAssetByMint, AssetManager.getAsset, bind, get, ret.
    now rewrite Hk.
  - intros Hh timeframe. unfold AssetManager.getPriceHistory, bind, get.
    now rewrite Hh.
Qed.

Lemma unknown_asset_key_witness :
  AssetManager.updateAssetPrice 2 "PIKACHUmint" 7 managerC = (Returned tt, managerC)
  /\ AssetManager.removeAsset "PIKACHUmint" managerC = (Returned false, managerC).
Proof.
  destruct (unknown_asset_key managerC 2 "PIKACHUmint" 7) as (H1 & H2 & _).
  - vm_compute. reflexivity.
  - split; assumption.
Defined.

(** X23. [removeAsset] called with the id of an asset takes away both of
    its keys and its price history; called with the mint it only takes
    away the mint and the history, and the asset is still found under its
    id. *)
Theorem removal_by_id_or_by_mint (a : AssetManager.t) (id mint : string)
    (o : nat) (asset : CollectibleAsset.t) :
  AssetManager.assets a !! id = Some o ->
  AssetManager.assets a !! mint = Some o ->
  AssetManager.objects a !! o = Some asset ->
  CollectibleAsset.mint asset = mint ->
  id <> mint ->
  (let a' := after (AssetManager.removeAsset id) a in
   result (AssetManager.removeAsset id) a = Returned true
   /\ AssetManager.getAsset id a' = None
   /\ AssetManager.getAsset mint a' = None
   /\ AssetManager.priceHistory a' !! mint = None)
  /\ (let a' := after (AssetManager.removeAsset mint) a in
      result (AssetManager.removeAsset mint) a = Returned true
      /\ AssetManager.getAsset mint a' = None
      /\ AssetManager.priceHistory a' !! mint = None
      /\ AssetManager.getAsset id a' = Some asset).
Proof.
  intros Hid Hmint Hobj Hm Hne.
  assert (Hrun : forall key, AssetManager.assets a !! key = Some o ->
             AssetManager.removeAsset key a
             = (Returned true,
                AssetManager.mk (AssetManager.objects a) (AssetManager.arrays a)
                  (delete mint (delete key (AssetManager.assets a)))
                  (delete mint (AssetManager.priceHistory a)))).
  { intros key Hk.
    unfold AssetManager.removeAsset, AssetManager.getAsset, bind, get, modify, ret.
    rewrite Hk, Hobj, Hm. reflexivity. }
  split; intros a'; subst a'; unfold result, after; rewrite Hrun by assumption;
    unfold AssetManager.getAsset; simpl.
  - repeat split.
    + rewrite lookup_delete_ne, lookup_delete_eq by auto. reflexivity.
    + now rewrite lookup_delete_eq.
    + apply lookup_delete_eq.
  - repeat split.
    + now rewrite lookup_delete_eq.
    + apply lookup_delete_eq.
    + rewrite !lookup_delete_ne, Hid by auto. exact Hobj.
Qed.

Lemma removal_by_id_or_by_mint_witness :
  AssetManager.getAsset "CHARIZARDmint1"
    (after (AssetManager.removeAsset "CHARIZARDmint1") managerC) = None
  /\ is_Some
       (AssetManager.getAsset "charizard-1st-edition-1700000000000"
          (after (AssetManager.removeAsset "CHARIZARDmint1") managerC)).
Proof.
  destruct (removal_by_id_or_by_mint managerC
              "charizard-1st-edition-1700000000000" "CHARIZARDmint1" 0
              (CollectibleAsset.mk "charizard-1st-edition-1700000000000"
                 "Charizard 1st Edition" "PSA 10 holographic card"
                 "trading_cards" "CHARIZARDmint1" 100000 60000 3 0 1 1))
    as (_ & _ & H1 & _ & H2); try (vm_compute; reflexivity).
  - discriminate.
  - split; [exact H1|]. rewrite H2. eauto.
Defined.

(** X24. The price history handed over with a new asset is kept on the
    asset but is not what [getPriceHistory] reads: until the first price
    update under the mint, the history of the mint is empty for every
    timeframe and time. *)
Theorem supplied_history_is_not_served (a : AssetManager.t) (now : Z)
    (ts : string) (asset : NewAsset.t) (t : Z) (timeframe : AssetManager.Timeframe) :
  let a' := after (AssetManager.addAsset now ts asset) a in
  AssetManager.historyOf (NewAsset.mint asset) a' = Some (NewAsset.priceHistory asset)
  /\ result (AssetManager.getPriceHistory t (NewAsset.mint asset) timeframe) a'
     = Returned [].
Proof.
  intros a'.
  set (id := AssetManager.generateAssetId (NewAsset.name asset) ts).
  set (o := length (AssetManager.objects a)).
  set (h := length (AssetManager.arrays a)).
  assert (Hassets : AssetManager.assets a' !! NewAsset.mint asset = Some o)
    by apply lookup_insert_eq.
  assert (Hobj : exists stored,
             AssetManager.objects a' !! o = Some stored
             /\ CollectibleAsset.priceHistory stored = h).
  { eexists. split; [apply list_lookup_middle; reflexivity|reflexivity]. }
  destruct Hobj as (stored & Hobj & Hh).
  assert (Harr : AssetManager.arrays a' !! h = Some (NewAsset.priceHistory asset))
    by (apply list_lookup_middle; reflexivity).
  assert (Hmap : AssetManager.priceHistory a' !! NewAsset.mint asset = Some (S h))
    by apply lookup_insert_eq.
  assert (Hempty : AssetManager.arrays a' !! S h = Some []).
  { change (AssetManager.arrays a')
      with (AssetManager.arrays a ++ [NewAsset.priceHistory asset; []])%list.
    rewrite lookup_app_r by (unfold h; lia).
    replace (S h - length (AssetManager.arrays a))%nat with 1%nat
      by (unfold h; lia).
    reflexivity. }
  clearbody a'. split.
  - unfold AssetManager.historyOf, AssetManager.getAsset.
    now rewrite Hassets, Hobj, Hh.
  - unfold result, AssetManager.getPriceHistory, bind, get, ret. simpl fst.
    now rewrite Hmap, Hempty.
Qed.

(** ** The wallet gate *)

(** X25. Every operation of the platform that acts for the wallet needs
    it connected: with a wallet that is not, buying, selling, placing and
    cancelling an order and requesting a redemption all throw
    [WALLET_NOT_CONNECTED] and leave the platform unchanged. *)
Theorem wallet_gate (p : CollectFi.t) (now : Z) (m orderId : string) (q price : Q)
    (limit : option Q) (side : TradeSide) (addr : ShippingAddress.t) :
  Wallet.isConnected (CollectFi.wallet p) = false ->
  let refused {A} (c : M CollectFi.t A) :=
    c p = (Thrown (CollectFiError "WALLET_NOT_CONNECTED"), p) in
  refused (CollectFi.buyTokens now m q limit)
  /\ refused (CollectFi.sellTokens now m q limit)
  /\ refused (CollectFi.placeLimitOrder now orderId m side q price)
  /\ refused (CollectFi.cancelOrder orderId)
  /\ refused (CollectFi.requestRedemption now orderId m addr).
Proof.
  intros Hc refused. subst refused. cbv beta.
  unfold CollectFi.buyTokens, CollectFi.sellTokens, CollectFi.placeLimitOrder,
    CollectFi.cancelOrder, CollectFi.requestRedemption, bind, get.
  rewrite Hc. repeat split.
Qed.

Lemma wallet_gate_witness :
  CollectFi.buyTokens 1 rolex1 10 None
    (CollectFi.new (Some "11111111111111111111111111111111"))
  = (Thrown (CollectFiError "WALLET_NOT_CONNECTED"),
     CollectFi.new (Some "11111111111111111111111111111111")).
Proof.
  apply (wallet_gate (CollectFi.new (Some "11111111111111111111111111111111"))
           1 rolex1 "order_1_x" 10 180 None buy home).
  reflexivity.
Defined.
